(** * The underwriting core of the NBFC MCP server

    A shallow embedding of [compute_emi] and [call_underwrite_loan] of
    [mcp_server/main.py], with the Python arithmetic they run on.

    Python's [int] is [Z].  Python's [float] is IEEE-754 binary64, taken
    from the kernel's primitive floats; the operations that can raise
    ([/], [**], the conversion of an [int]) return in an error monad.
    The two functions are written once over an interface of the float
    operations they use, and read at two instances: [Binary64.ops], the
    arithmetic the program runs on, and [Exact.ops], the same operations
    over the rationals without rounding, where the statements about the
    amortisation formula as a real function live. *)

From Stdlib Require Import ZArith QArith Qpower Floats Ascii String Lia Lqa.
From stdpp Require Import gmap strings.

Set Warnings "-inexact-float".
Local Open Scope Z_scope.

(** ** Exceptions and the error monad *)

Inductive exn : Type :=
| HTTPException (status_code : Z)
| ZeroDivisionError
| OverflowError.

Inductive res (A : Type) : Type :=
| Ok (a : A)
| Raise (e : exn).

Arguments Ok {A} a.
Arguments Raise {A} e.

#[global] Instance res_ret : MRet res := fun A a => Ok a.
#[global] Instance res_bind : MBind res := fun A B k m =>
  match m with
  | Ok a => k a
  | Raise e => Raise e
  end.

(** ** The float operations the two functions use

    [lit z] is a literal with an integer value ([12.0], [100.0], and the
    [int] literals [0] and [1] next to a float); [half] is [0.5];
    [float_of_int] is the conversion Python applies to an [int] operand
    of a float operation; [int_truediv] is [/] on two [int]s; [fpow] is
    [float ** int]. *)

Class FloatOps (F : Type) : Type := {
  lit : Z -> F;
  half : F;
  float_of_int : Z -> res F;
  int_truediv : Z -> Z -> res F;
  fadd : F -> F -> F;
  fsub : F -> F -> F;
  fmul : F -> F -> F;
  fdiv : F -> F -> res F;
  fpow : F -> Z -> res F;
  feqb : F -> F -> bool;
  fleb : F -> F -> bool;
}.

(** ** Binary64: the arithmetic of CPython's [float] *)

Module Binary64.

Definition SF_of_Z (z : Z) : spec_float :=
  match z with
  | Z0 => S754_zero false
  | Zpos p => S754_finite false p 0
  | Zneg p => S754_finite true p 0
  end.

(** The float nearest to an integer, ties to even; [infinity] past the
    largest float. *)
Definition round_Z (z : Z) : float :=
  SF2Prim (binary_normalize prec emax z 0 false).

(** [float(z)]: [OverflowError] (int too large to convert to float)
    when the rounded value is out of range. *)
Definition long_as_double (z : Z) : res float :=
  let x := round_Z z in
  if PrimFloat.is_infinity x then Raise OverflowError else Ok x.

(** [a / b] on two ints: the correctly rounded quotient;
    [ZeroDivisionError] for [b = 0], [OverflowError] when the quotient
    is too large for a float. *)
Definition long_true_divide (a b : Z) : res float :=
  if b =? 0 then Raise ZeroDivisionError
  else
    let x := SF2Prim (SFdiv prec emax (SF_of_Z a) (SF_of_Z b)) in
    if PrimFloat.is_infinity x then Raise OverflowError else Ok x.

(** [x / y] on two floats: [ZeroDivisionError] for a zero divisor of
    either sign. *)
Definition float_div (x y : float) : res float :=
  if PrimFloat.eqb y 0%float then Raise ZeroDivisionError
  else Ok (PrimFloat.div x y).

(** The integer a float stands for, when it is one. *)
Definition SF_int_value (f : spec_float) : option Z :=
  match f with
  | S754_zero _ => Some 0
  | S754_finite s m e =>
      let v :=
        if 0 <=? e then Some (Zpos m * 2 ^ e)
        else if Zpos m mod 2 ^ (- e) =? 0 then Some (Zpos m / 2 ^ (- e))
        else None in
      if s then Z.opp <$> v else v
  | _ => None
  end.

(** The C library's [pow], on the arguments [float.__pow__] hands it
    here: a finite base above 0 and an exponent that is a non-zero
    integer.  It is modelled as the correctly rounded power; a C
    library may differ from it in the last place, so an EMI that went
    through it is the platform's up to that, and a comparison
    [emi <= 0.5 * salary] within that distance can go the other way.
    The general statements below do not depend on the value it
    returns; the examples on concrete inputs do.  Outside these
    arguments the model answers [nan]. *)
Definition libm_pow (x y : float) : float :=
  match Prim2SF x, SF_int_value (Prim2SF y) with
  | S754_finite false m e, Some (Zpos k) =>
      SF2Prim (binary_normalize prec emax (Zpos (m ^ k)) (e * Zpos k) false)
  | S754_finite false m e, Some (Zneg k) =>
      SF2Prim (SFdiv prec emax (S754_finite false 1 0)
                               (S754_finite false (m ^ k) (e * Zpos k)))
  | _, _ => PrimFloat.nan
  end.

(** [DOUBLE_IS_ODD_INTEGER] on [float(n)]: every float from [2^53] on
    is an even integer. *)
Definition is_odd_integer (n : Z) : bool :=
  Z.odd n && (Z.abs n <? 2 ^ 53).

(** [iv ** n] for a float [iv] and an int [n], after CPython's
    [float_pow]: the exponent is converted first, then the special
    cases are sorted out in the order of the C code, and what is left
    goes to the C library, whose range error is [OverflowError].  The
    cases of a [nan], infinite or fractional exponent cannot occur
    for a converted int and are left out. *)
Definition float_pow (iv : float) (n : Z) : res float :=
  iw ← long_as_double n;
  if PrimFloat.eqb iw 0%float then Ok 1%float
  else if PrimFloat.is_nan iv then Ok iv
  else if PrimFloat.is_infinity iv then
    if PrimFloat.ltb 0%float iw
    then Ok (if is_odd_integer n then iv else PrimFloat.abs iv)
    else Ok (if is_odd_integer n
             then (if PrimFloat.ltb iv 0%float then (-0)%float else 0%float)
             else 0%float)
  else if PrimFloat.eqb iv 0%float then
    if PrimFloat.ltb iw 0%float then Raise ZeroDivisionError
    else Ok (if is_odd_integer n then iv else 0%float)
  else
    let negate_result := PrimFloat.ltb iv 0%float && is_odd_integer n in
    let iv := PrimFloat.abs iv in
    if PrimFloat.eqb iv 1%float
    then Ok (if negate_result then (-1)%float else 1%float)
    else
      let ix := libm_pow iv iw in
      if PrimFloat.is_infinity ix then Raise OverflowError
      else Ok (if negate_result then PrimFloat.opp ix else ix).

#[global] Instance ops : FloatOps float := {|
  lit := round_Z;
  half := 0.5%float;
  float_of_int := long_as_double;
  int_truediv := long_true_divide;
  fadd := PrimFloat.add;
  fsub := PrimFloat.sub;
  fmul := PrimFloat.mul;
  fdiv := float_div;
  fpow := float_pow;
  feqb := PrimFloat.eqb;
  fleb := PrimFloat.leb;
|}.

End Binary64.

(** ** Exact: the same operations over the rationals, without rounding

    This is not arithmetic the program runs.  It is the reference the
    amortisation formula is read in as a function of real numbers. *)

Module Exact.

Definition Q_truediv (a b : Z) : res Q :=
  if b =? 0 then Raise ZeroDivisionError
  else Ok (inject_Z a / inject_Z b)%Q.

Definition Q_div (x y : Q) : res Q :=
  if Qeq_bool y 0 then Raise ZeroDivisionError else Ok (x / y)%Q.

Definition Q_pow (x : Q) (n : Z) : res Q :=
  if (n <? 0) && Qeq_bool x 0 then Raise ZeroDivisionError
  else Ok (x ^ n)%Q.

#[global] Instance ops : FloatOps Q := {|
  lit := inject_Z;
  half := (1 # 2)%Q;
  float_of_int := fun z => Ok (inject_Z z);
  int_truediv := Q_truediv;
  fadd := Qplus;
  fsub := Qminus;
  fmul := Qmult;
  fdiv := Q_div;
  fpow := Q_pow;
  feqb := Qeq_bool;
  fleb := Qle_bool;
|}.

End Exact.

(** ** Truthiness of the optional request fields *)

(** [not x] for an optional int: [None] and [0] are falsy. *)
Definition truthy_int (x : option Z) : bool :=
  match x with
  | Some z => negb (z =? 0)
  | None => false
  end.

(** [not s] for an optional str: [None] and the empty string are falsy. *)
Definition truthy_str (s : option string) : bool :=
  match s with
  | Some EmptyString => false
  | Some _ => true
  | None => false
  end.

(** [x or d]: [x] when it is truthy, else [d]. *)
Definition int_or (x : option Z) (d : Z) : Z :=
  match x with
  | Some z => if z =? 0 then d else z
  | None => d
  end.

(** ** The customer directory *)

Module Cust.
Record t : Type := mk {
  customer_id : string;
  name : string;
  age : Z;
  city : string;
  phone : string;
  email : string;
  pre_approved_limit : Z;
  salary_monthly : Z;
  credit_score : Z;
}.
End Cust.

Definition cust001 := Cust.mk "CUST001" "Asha Verma" 32 "Pune" "9810000001" "asha@example.com" 300000 60000 745.
Definition cust002 := Cust.mk "CUST002" "Rahul Sharma" 29 "Delhi" "9810000002" "rahul@example.com" 200000 45000 712.
Definition cust003 := Cust.mk "CUST003" "Sneha Iyer" 35 "Bengaluru" "9810000003" "sneha@example.com" 400000 85000 780.
Definition cust004 := Cust.mk "CUST004" "Vikram Singh" 40 "Lucknow" "9810000004" "vikram@example.com" 150000 30000 690.
Definition cust005 := Cust.mk "CUST005" "Nisha Patel" 27 "Ahmedabad" "9810000005" "nisha@example.com" 250000 52000 710.
Definition cust006 := Cust.mk "CUST006" "Arjun Rao" 31 "Hyderabad" "9810000006" "arjun@example.com" 350000 70000 760.
Definition cust007 := Cust.mk "CUST007" "Meera Desai" 30 "Surat" "9810000007" "meera@example.com" 180000 40000 695.
Definition cust008 := Cust.mk "CUST008" "Karan Mehta" 33 "Mumbai" "9810000008" "karan@example.com" 320000 65000 735.
Definition cust009 := Cust.mk "CUST009" "Priya Nair" 28 "Kochi" "9810000009" "priya@example.com" 280000 48000 725.
Definition cust010 := Cust.mk "CUST010" "Sourav Ghosh" 36 "Kolkata" "9810000010" "sourav@example.com" 500000 90000 790.

(** The module-level dict; no handler assigns to it.  Every entry
    carries the three keys the underwriting reads, so the defaults of
    [cust.get(key, 0)] are never taken and the entries are records. *)
Definition CUSTOMERS : gmap string Cust.t :=
  <["CUST001" := cust001]> (<["CUST002" := cust002]> (
  <["CUST003" := cust003]> (<["CUST004" := cust004]> (
  <["CUST005" := cust005]> (<["CUST006" := cust006]> (
  <["CUST007" := cust007]> (<["CUST008" := cust008]> (
  <["CUST009" := cust009]> (<["CUST010" := cust010]> ∅))))))))).

(** ** Request, outcome, response, and the two functions *)

Section Core.

Context {F : Type} {ops : FloatOps F}.

Record UnderwriteInput : Type := {
  customer_id : string;
  requested_amount : Z;
  tenure_months : Z;
  annual_rate : F;
  salary_provided : option Z;
  salary_slip_resource : option string;
}.

(** The [result] dict of a response: [decision] and [reason] always,
    the other keys when the branch puts them in. *)
Record Outcome : Type := {
  decision : string;
  reason : string;
  emi : option F;
  credit_score : option Z;
  pre_limit : option Z;
}.

Record Response : Type := {
  status : string;
  result : Outcome;
}.

Definition ok (o : Outcome) : Response := {| status := "ok"; result := o |}.

(** [compute_emi(P, annual_rate, n_months)].  [P] is annotated [float]
    but both calls pass the request's [int] amount, so [P / n_months] is
    a division of two ints and [P * r] converts [P]. *)
Definition compute_emi (P : Z) (annual_rate : F) (n_months : Z) : res F :=
  r12 ← fdiv annual_rate (lit 12);
  r ← fdiv r12 (lit 100);
  if feqb r (lit 0) then int_truediv P n_months
  else
    Pf ← float_of_int P;
    pw ← fpow (fadd (lit 1) r) n_months;
    let numerator := fmul (fmul Pf r) pw in
    pw' ← fpow (fadd (lit 1) r) n_months;
    let denominator := fsub pw' (lit 1) in
    fdiv numerator denominator.

(** The decision procedure: the body of [call_underwrite_loan] below the
    customer lookup. *)
Definition underwrite (cust : Cust.t) (data : UnderwriteInput) : res Response :=
  let score := Cust.credit_score cust in
  let pre_limit := Cust.pre_approved_limit cust in
  let requested := requested_amount data in
  let tenure := tenure_months data in
  let rate := annual_rate data in
  if score <? 700 then
    Ok (ok {| decision := "reject"; reason := "credit_score_below_700";
              emi := None; credit_score := Some score; pre_limit := None |})
  else if requested <=? pre_limit then
    emi ← compute_emi requested rate tenure;
    Ok (ok {| decision := "approve"; reason := "within_pre_approved_limit";
              emi := Some emi; credit_score := None; pre_limit := None |})
  else if requested <=? 2 * pre_limit then
    if negb (truthy_str (salary_slip_resource data))
       && negb (truthy_int (salary_provided data))
    then
      Ok (ok {| decision := "require_salary_slip"; reason := "salary_slip_required";
                emi := None; credit_score := None; pre_limit := None |})
    else
      let salary := int_or (salary_provided data) (Cust.salary_monthly cust) in
      emi ← compute_emi requested rate tenure;
      salary_f ← float_of_int salary;
      if fleb emi (fmul half salary_f) then
        Ok (ok {| decision := "approve"; reason := "emi_within_50pct_salary";
                  emi := Some emi; credit_score := None; pre_limit := None |})
      else
        Ok (ok {| decision := "reject"; reason := "emi_exceeds_50pct_salary";
                  emi := Some emi; credit_score := None; pre_limit := None |})
  else
    Ok (ok {| decision := "reject"; reason := "amount_exceeds_2x_pre_approved";
              emi := None; credit_score := None; pre_limit := Some pre_limit |}).

(** The endpoint: lookup, [404] for an unknown customer, then the
    decision procedure. *)
Definition call_underwrite_loan (payload : UnderwriteInput) : res Response :=
  let data := payload in
  let cid := customer_id data in
  match CUSTOMERS !! cid with
  | None => Raise (HTTPException 404)
  | Some cust => underwrite cust data
  end.

End Core.

Arguments UnderwriteInput F : clear implicits.
Arguments Outcome F : clear implicits.
Arguments Response F : clear implicits.

(** ** Vocabulary of the statements *)

Section Vocabulary.

Context {F : Type} {ops : FloatOps F}.

(** The six outcomes, by reason code. *)
Definition outcome_credit_floor (score : Z) : Outcome F :=
  {| decision := "reject"; reason := "credit_score_below_700";
     emi := None; credit_score := Some score; pre_limit := None |}.

Definition outcome_within_limit (e : F) : Outcome F :=
  {| decision := "approve"; reason := "within_pre_approved_limit";
     emi := Some e; credit_score := None; pre_limit := None |}.

Definition outcome_slip_required : Outcome F :=
  {| decision := "require_salary_slip"; reason := "salary_slip_required";
     emi := None; credit_score := None; pre_limit := None |}.

Definition outcome_affordable (e : F) : Outcome F :=
  {| decision := "approve"; reason := "emi_within_50pct_salary";
     emi := Some e; credit_score := None; pre_limit := None |}.

Definition outcome_unaffordable (e : F) : Outcome F :=
  {| decision := "reject"; reason := "emi_exceeds_50pct_salary";
     emi := Some e; credit_score := None; pre_limit := None |}.

Definition outcome_exceeds_2x (limit : Z) : Outcome F :=
  {| decision := "reject"; reason := "amount_exceeds_2x_pre_approved";
     emi := None; credit_score := None; pre_limit := Some limit |}.

(** Salary evidence as the guard of the second bracket reads it: a
    non-empty slip reference or a non-zero [salary_provided]. *)
Definition salary_evidence (data : UnderwriteInput F) : bool :=
  truthy_str (salary_slip_resource data) || truthy_int (salary_provided data).

(** The effective salary in the specification's words:
    [salary_provided] if present and truthy, else the salary on file. *)
Definition effective_salary (cust : Cust.t) (data : UnderwriteInput F) : Z :=
  match salary_provided data with
  | Some s => if s =? 0 then Cust.salary_monthly cust else s
  | None => Cust.salary_monthly cust
  end.

(** The monthly rate [r = annual_rate / 12 / 100]. *)
Definition monthly_rate (annual_rate_percent : F) : res F :=
  r12 ← fdiv annual_rate_percent (lit 12);
  fdiv r12 (lit 100).

(** The EMI calculator in the specification's words (its section 4.1):
    the degenerate case is decided on the annual rate, the general case
    is [principal * r * (1+r)^n / ((1+r)^n - 1)]. *)
Definition emi_spec (principal : Z) (annual_rate_percent : F) (tenure : Z) : res F :=
  if feqb annual_rate_percent (lit 0) then int_truediv principal tenure
  else
    r ← monthly_rate annual_rate_percent;
    p ← float_of_int principal;
    g ← fpow (fadd (lit 1) r) tenure;
    g' ← fpow (fadd (lit 1) r) tenure;
    fdiv (fmul (fmul p r) g) (fsub g' (lit 1)).

Definition request (cid : string) (amount tenure : Z) (rate : F)
    (salary : option Z) (slip : option string) : UnderwriteInput F :=
  {| customer_id := cid; requested_amount := amount; tenure_months := tenure;
     annual_rate := rate; salary_provided := salary;
     salary_slip_resource := slip |}.

End Vocabulary.

(** Exact values of the two branches of the EMI formula. *)
Definition monthly (rate : Q) : Q := (rate / inject_Z 12 / inject_Z 100)%Q.

Definition amortised (P : Z) (r : Q) (n : Z) : Q :=
  (inject_Z P * r * (inject_Z 1 + r) ^ n / ((inject_Z 1 + r) ^ n - inject_Z 1))%Q.

(** Geometric sums: [geo x k = 1 + x + ... + x^(k-1)]. *)
Fixpoint geo (x : Q) (k : nat) : Q :=
  match k with
  | O => 0%Q
  | S k' => (geo x k' + x ^ Z.of_nat k')%Q
  end.

(** Requests on binary64 used below. *)
Definition zero_tenure_request : UnderwriteInput float :=
  request "CUST001" 300000 0 12%float None None.

(** A positive annual rate so small that [1 + r] rounds to [1]. *)
Definition tiny_rate_request : UnderwriteInput float :=
  request "CUST001" 300000 36 1e-14%float None None.

(** A rate of 12000 percent over thirty years: [11.0 ** 360] is out of
    range. *)
Definition huge_rate_request : UnderwriteInput float :=
  request "CUST001" 300000 360 12000%float None None.

(** The two smallest positive floats. *)
Definition rate_min : float := 0x1p-1074%float.
Definition rate_min2 : float := 0x1p-1073%float.

(** Three small positive annual rates.  At the first [1 + r] rounds to
    [1]; at the other two it rounds to [1 + 2^-52] and to [1 + 2^-51]. *)
Definition rate_absorbed : float := 1e-14%float.
Definition rate_lo : float := 0x1.a4p-42%float.
Definition rate_hi : float := 0x1.ep-42%float.

(** The rational a finite float stands for. *)
Definition Q_of_float (x : float) : option Q :=
  match Prim2SF x with
  | S754_zero _ => Some 0%Q
  | S754_finite s m e =>
      let v := (inject_Z (Zpos m) * 2 ^ e)%Q in
      Some (if s then (- v)%Q else v)
  | _ => None
  end.

(** ** The other handlers: dynamic payloads and the storage directory *)

(** A decoded JSON value, as the handlers that take [Dict[str, Any]]
    receive it. *)
#[warnings="-register-all"]
Inductive json : Type :=
| JNull
| JBool (b : bool)
| JInt (z : Z)
| JFloat (f : float)
| JStr (s : string)
| JList (items : list json)
| JDict (items : list (string * json)).

(** [bool(v)]: what [not v] negates. *)
Definition truthy (v : json) : bool :=
  match v with
  | JNull => false
  | JBool b => b
  | JInt z => negb (z =? 0)
  | JFloat f => negb (PrimFloat.eqb f 0%float)
  | JStr s => negb (String.eqb s "")
  | JList items => negb (bool_decide (items = []))
  | JDict items => negb (bool_decide (items = []))
  end.

(** [payload.get(key)]: [None] for a missing key. *)
Definition payload_get (payload : gmap string json) (key : string) : json :=
  default JNull (payload !! key).

(** What these handlers raise: an [HTTPException] with its status code
    and, when the handler gives one, its detail; or the [TypeError] of
    hashing a list or a dict. *)
Inductive error : Type :=
| HTTPError (status_code : Z) (detail : option string)
| TypeError.

Inductive answer (A : Type) : Type :=
| Returns (a : A)
| Raises (e : error).

Arguments Returns {A} a.
Arguments Raises {A} e.

(** [CUSTOMERS.get(cid)]: the keys are strs, so only a str can be found;
    a list or a dict cannot be hashed; any other value is hashed and
    not found. *)
Definition CUSTOMERS_get (cid : json) : answer (option Cust.t) :=
  match cid with
  | JStr s => Returns (CUSTOMERS !! s)
  | JList _ | JDict _ => Raises TypeError
  | _ => Returns None
  end.

(** [value == v] for a str [value]. *)
Definition str_eq_json (value : string) (v : json) : bool :=
  match v with
  | JStr s => String.eqb value s
  | _ => false
  end.

(** The str a found key is. *)
Definition key_str (cid : json) : string :=
  match cid with
  | JStr s => s
  | _ => ""
  end.

Record KycResult : Type := {
  phone_verified : bool;
  address_verified : bool;
}.

Definition call_get_customer_info (payload : gmap string json) : answer (string * Cust.t) :=
  let cid := payload_get payload "customer_id" in
  if negb (truthy cid) then Raises (HTTPError 400 (Some "customer_id required"%string))
  else
    match CUSTOMERS_get cid with
    | Raises e => Raises e
    | Returns None => Raises (HTTPError 404 (Some "customer not found"%string))
    | Returns (Some cust) => Returns ("ok"%string, cust)
    end.

Definition call_verify_kyc (payload : gmap string json) : answer (string * KycResult) :=
  let cid := payload_get payload "customer_id" in
  let phone := payload_get payload "phone" in
  if negb (truthy cid) || negb (truthy phone)
  then Raises (HTTPError 400 (Some "customer_id and phone required"%string))
  else
    match CUSTOMERS_get cid with
    | Raises e => Raises e
    | Returns None => Raises (HTTPError 404 (Some "customer not found"%string))
    | Returns (Some cust) =>
        let phone_verified := str_eq_json (Cust.phone cust) phone in
        Returns ("ok"%string,
                 {| phone_verified := phone_verified; address_verified := true |})
    end.

Definition call_get_credit_score (payload : gmap string json) : answer (string * Z) :=
  let cid := payload_get payload "customer_id" in
  if negb (truthy cid) then Raises (HTTPError 400 None)
  else
    match CUSTOMERS_get cid with
    | Raises e => Raises e
    | Returns None => Raises (HTTPError 404 None)
    | Returns (Some cust) => Returns ("ok"%string, Cust.credit_score cust)
    end.

(** *** Paths *)

(** [p.rfind(c)] on the characters of [p]: the last index of [c]. *)
Fixpoint rfind (c : ascii) (p : list ascii) : option nat :=
  match p with
  | [] => None
  | x :: p' =>
      match rfind c p' with
      | Some j => Some (S j)
      | None => if Ascii.eqb x c then Some O else None
      end
  end.

(** [rfind] as Python returns it: [-1] when there is none. *)
Definition rfind_index (c : ascii) (p : list ascii) : Z :=
  match rfind c p with
  | Some i => Z.of_nat i
  | None => -1
  end.

(** [os.path.splitext] on POSIX: the extension starts at the last dot
    of the last component, unless only dots come before it there. *)
Definition splitext (p : string) : string * string :=
  let chars := list_ascii_of_string p in
  let sepIndex := rfind_index "/" chars in
  let dotIndex := rfind_index "." chars in
  if sepIndex <? dotIndex then
    let filenameIndex := Z.to_nat (sepIndex + 1) in
    let d := Z.to_nat dotIndex in
    if existsb (fun ch => negb (Ascii.eqb ch "."))
               (take (d - filenameIndex) (drop filenameIndex chars))
    then (string_of_list_ascii (take d chars), string_of_list_ascii (drop d chars))
    else (p, ""%string)
  else (p, ""%string).

(** [os.path.join(a, b)] on POSIX. *)
Definition path_join (a b : string) : string :=
  if String.prefix "/" b then b
  else if String.eqb a "" || String.eqb (String.substring (String.length a - 1) 1 a) "/"
       then a +:+ b
       else a +:+ "/" +:+ b.

(** Absence of the path separator, and the digits of [uuid4().hex]. *)
Definition no_sep (s : string) : bool :=
  forallb (fun ch => negb (Ascii.eqb ch "/")) (list_ascii_of_string s).

Definition is_hex (s : string) : bool :=
  forallb (fun ch => bool_decide (In ch (list_ascii_of_string "0123456789abcdef")))
          (list_ascii_of_string s).

(** *** The storage directory

    The files under [STORAGE_DIR], by path, with their contents.  The
    directory and the values read off the environment at a call (the
    uuid, the bytes of an upload, the bytes the PDF library writes, the
    serialised log line) are arguments. *)

Record Resource : Type := {
  resource : string;
  path : string;
}.

Definition call_upload_salary_slip (STORAGE_DIR uuid_hex : string)
    (customer_id : option string) (file_filename file_content : string)
    (files : gmap string string) : answer (string * Resource) * gmap string string :=
  if negb (truthy_str customer_id)
  then (Raises (HTTPError 400 (Some "customer_id required"%string)), files)
  else
    let cid := default ""%string customer_id in
    if negb (bool_decide (is_Some (CUSTOMERS !! cid)))
    then (Raises (HTTPError 404 (Some "customer not found"%string)), files)
    else
      let ext := (splitext file_filename).2 in
      let ext := if String.eqb ext "" then ".pdf"%string else ext in
      let filename := "salary_" +:+ cid +:+ "_" +:+ uuid_hex +:+ ext in
      let path := path_join STORAGE_DIR filename in
      (Returns ("ok"%string, {| resource := "resource://" +:+ filename; path := path |}),
       <[path := file_content]> files).

Definition call_generate_sanction_letter (STORAGE_DIR uuid_hex pdf_bytes : string)
    (payload : gmap string json)
    (files : gmap string string) : answer (string * Resource) * gmap string string :=
  let cid := payload_get payload "customer_id" in
  let amount := payload_get payload "amount" in
  if negb (truthy cid) || negb (truthy amount)
  then (Raises (HTTPError 400 None), files)
  else
    match CUSTOMERS_get cid with
    | Raises e => (Raises e, files)
    | Returns None => (Raises (HTTPError 404 None), files)
    | Returns (Some cust) =>
        let filename := "sanction_" +:+ key_str cid +:+ "_" +:+ uuid_hex +:+ ".pdf" in
        let path := path_join STORAGE_DIR filename in
        (Returns ("ok"%string, {| resource := "resource://" +:+ filename; path := path |}),
         <[path := pdf_bytes]> files)
    end.

(** [fetch_resource]: the file served, by its contents.  [files] holds
    the regular files; a path that exists without being one (a
    directory) also passes [os.path.exists], and is not modelled. *)
Definition fetch_resource (STORAGE_DIR filename : string)
    (files : gmap string string) : answer string :=
  let path := path_join STORAGE_DIR filename in
  match files !! path with
  | None => Raises (HTTPError 404 None)
  | Some content => Returns content
  end.

(** [call_log_event] on the files: the serialised line is appended to
    [mcp_audit.log], which is created when it is not there. *)
Definition log_event_file (STORAGE_DIR line : string)
    (files : gmap string string) : gmap string string :=
  let path := path_join STORAGE_DIR "mcp_audit.log" in
  <[path := default ""%string (files !! path) +:+ line +:+ String "010" ""]> files.

(** The directory prefix a relative name is appended to. *)
Definition dir_prefix (a : string) : string :=
  if String.eqb a "" || String.eqb (String.substring (String.length a - 1) 1 a) "/"
  then a else a +:+ "/".

(** The lines of the audit log, each with its newline. *)
Definition log_text (lines : list string) : string :=
  foldr (fun line rest => line +:+ String "010" "" +:+ rest) ""%string lines.

(** Values for the examples. *)
Definition slip_a : Resource :=
  {| resource := "resource://salary_CUST001_0123456789abcdef0123456789abcdef.pdf";
     path := "./storage/salary_CUST001_0123456789abcdef0123456789abcdef.pdf" |}.
Definition slip_b : Resource :=
  {| resource := "resource://salary_CUST002_fedcba9876543210fedcba9876543210.png";
     path := "./storage/salary_CUST002_fedcba9876543210fedcba9876543210.png" |}.
Definition letter_a : Resource :=
  {| resource := "resource://sanction_CUST004_0123456789abcdef0123456789abcdef.pdf";
     path := "./storage/sanction_CUST004_0123456789abcdef0123456789abcdef.pdf" |}.
Definition letter_payload : gmap string json :=
  {[ "customer_id" := JStr "CUST004"; "amount" := JInt 1000000 ]}.
Definition uuid_a : string := "0123456789abcdef0123456789abcdef".
Definition uuid_b : string := "fedcba9876543210fedcba9876543210".

(** What the directory's keys have in common. *)
Definition good_key (s : string) (cust : Cust.t) : Prop :=
  Cust.customer_id cust = s /\ no_sep s = true /\ String.length s = 7%nat.

(** A list or a dict with something in it. *)
Definition unhashable (v : json) : Prop :=
  match v with
  | JList (_ :: _) | JDict (_ :: _) => True
  | _ => False
  end.


(** An answer that is a value or an arithmetic exception. *)
Definition arithmetic {A} (m : res A) : Prop :=
  forall code, m <> Raise (HTTPException code).

(** A request with another slip reference. *)
Definition with_slip {F} (data : UnderwriteInput F) (slip : option string) : UnderwriteInput F :=
  {| customer_id := customer_id data; requested_amount := requested_amount data;
     tenure_months := tenure_months data; annual_rate := annual_rate data;
     salary_provided := salary_provided data; salary_slip_resource := slip |}.

(** * Properties *)

(** ** The directory *)

Lemma CUSTOMERS_limit_pos (cid : string) (cust : Cust.t) :
  CUSTOMERS !! cid = Some cust -> 0 < Cust.pre_approved_limit cust.
Proof.
  revert cid cust.
  change (map_Forall (fun _ c => 0 < Cust.pre_approved_limit c) CUSTOMERS).
  unfold CUSTOMERS.
  repeat (apply map_Forall_insert_2; [reflexivity|]).
  apply map_Forall_empty.
Qed.

Lemma CUSTOMERS_cust001 : CUSTOMERS !! "CUST001" = Some cust001.
Proof. reflexivity. Qed.

Lemma CUSTOMERS_cust004 : CUSTOMERS !! "CUST004" = Some cust004.
Proof. vm_compute. reflexivity. Qed.

(** ** Branch selection, for any float arithmetic *)

Section Decision.

Context {F : Type} {ops : FloatOps F}.
Implicit Types (cust : Cust.t) (data : UnderwriteInput F).

Lemma score_ok cust :
  700 <= Cust.credit_score cust -> (Cust.credit_score cust <? 700) = false.
Proof. intros; apply Z.ltb_ge; lia. Qed.

Lemma int_or_effective cust data :
  int_or (salary_provided data) (Cust.salary_monthly cust) = effective_salary cust data.
Proof. reflexivity. Qed.

(** A [salary_provided] of 0 resolves to the salary on file. *)
Lemma effective_salary_zero cust data :
  salary_provided data = Some 0 ->
  effective_salary cust data = Cust.salary_monthly cust.
Proof. unfold effective_salary. intros ->. reflexivity. Qed.

Lemma effective_salary_given cust data s :
  salary_provided data = Some s -> s <> 0 -> effective_salary cust data = s.
Proof.
  unfold effective_salary. intros -> Hs.
  destruct (Z.eqb_spec s 0); [contradiction | reflexivity].
Qed.

(** The first bracket: the answer is the EMI calculation wrapped as an
    approval, and raises what the calculation raises. *)
Lemma within_limit_eq cust data :
  700 <= Cust.credit_score cust ->
  requested_amount data <= Cust.pre_approved_limit cust ->
  underwrite cust data =
    (e ← compute_emi (requested_amount data) (annual_rate data) (tenure_months data);
     Ok (ok (outcome_within_limit e))).
Proof.
  intros Hs Hle. unfold underwrite.
  rewrite (score_ok _ Hs).
  apply Z.leb_le in Hle. rewrite Hle. reflexivity.
Qed.

(** The second bracket with salary evidence. *)
Lemma affordability_eq cust data :
  700 <= Cust.credit_score cust ->
  Cust.pre_approved_limit cust < requested_amount data ->
  requested_amount data <= 2 * Cust.pre_approved_limit cust ->
  salary_evidence data = true ->
  underwrite cust data =
    (e ← compute_emi (requested_amount data) (annual_rate data) (tenure_months data);
     s ← float_of_int (effective_salary cust data);
     Ok (ok (if fleb e (fmul half s)
             then outcome_affordable e else outcome_unaffordable e))).
Proof.
  intros Hs Hlo Hhi Hev. unfold underwrite.
  rewrite (score_ok _ Hs).
  apply Z.leb_gt in Hlo. rewrite Hlo.
  apply Z.leb_le in Hhi. rewrite Hhi.
  unfold salary_evidence in Hev.
  assert (negb (truthy_str (salary_slip_resource data))
          && negb (truthy_int (salary_provided data)) = false) as ->.
  { rewrite <- negb_orb, Hev. reflexivity. }
  rewrite int_or_effective.
  destruct (compute_emi _ _ _) as [e|x]; [|reflexivity]. cbn.
  destruct (float_of_int _) as [s|x]; [|reflexivity]. cbn.
  destruct (fleb e (fmul half s)); reflexivity.
Qed.

(** The second bracket without salary evidence, for falsy fields in
    general. *)
Lemma slip_required_falsy cust data :
  700 <= Cust.credit_score cust ->
  Cust.pre_approved_limit cust < requested_amount data ->
  requested_amount data <= 2 * Cust.pre_approved_limit cust ->
  salary_evidence data = false ->
  underwrite cust data = Ok (ok outcome_slip_required).
Proof.
  intros Hs Hlo Hhi Hev. unfold underwrite.
  rewrite (score_ok _ Hs).
  apply Z.leb_gt in Hlo. rewrite Hlo.
  apply Z.leb_le in Hhi. rewrite Hhi.
  unfold salary_evidence in Hev.
  apply orb_false_elim in Hev as [-> ->]. reflexivity.
Qed.

Lemma unknown_customer_404 data :
  CUSTOMERS !! customer_id data = None ->
  call_underwrite_loan data = Raise (HTTPException 404).
Proof. intros Hc. unfold call_underwrite_loan. rewrite Hc. reflexivity. Qed.

(** Whatever the endpoint returns has status [ok] and one of the three
    decisions. *)
Lemma response_shape data resp :
  call_underwrite_loan data = Ok resp ->
  status resp = "ok"%string
  /\ (decision (result resp) = "approve"%string
      \/ decision (result resp) = "reject"%string
      \/ decision (result resp) = "require_salary_slip"%string).
Proof.
  unfold call_underwrite_loan.
  destruct (CUSTOMERS !! customer_id data) as [cust|]; [|discriminate].
  unfold underwrite.
  repeat match goal with
         | |- context [if ?b then _ else _] => destruct b
         | |- context [mbind _ ?m] => destruct m; cbn
         end;
    intros E; inversion E; subst; cbn; auto.
Qed.

(** The decision reads three fields of the customer record. *)
Lemma underwrite_reads_three_fields cust cust' data :
  Cust.credit_score cust = Cust.credit_score cust' ->
  Cust.pre_approved_limit cust = Cust.pre_approved_limit cust' ->
  Cust.salary_monthly cust = Cust.salary_monthly cust' ->
  underwrite cust data = underwrite cust' data.
Proof. unfold underwrite. intros -> -> ->. reflexivity. Qed.

(** C1. A credit score below 700 is rejected with reason
    [credit_score_below_700] and the score in the payload, whatever the
    request: the rule comes first, so the amount, the tenure, the rate
    and the salary fields are not looked at. *)
Theorem credit_floor_rejects cust data :
  Cust.credit_score cust < 700 ->
  underwrite cust data = Ok (ok (outcome_credit_floor (Cust.credit_score cust))).
Proof.
  intros Hs. unfold underwrite.
  apply Z.ltb_lt in Hs. rewrite Hs. reflexivity.
Qed.

(** C2, amended.  Score at least 700, amount above the limit and at most
    twice the limit, salary evidence in the guard's sense (a non-empty
    slip reference or a non-zero [salary_provided]), and an EMI
    calculation and salary conversion that return [e] and [s]: the
    effective salary is [salary_provided] if present and non-zero, else
    the salary on file, and the answer is approve with reason
    [emi_within_50pct_salary] if [e <= 0.5 * s], else reject with reason
    [emi_exceeds_50pct_salary]; either way [e] is in the payload. *)
Theorem affordability_decides cust data e s :
  700 <= Cust.credit_score cust ->
  Cust.pre_approved_limit cust < requested_amount data ->
  requested_amount data <= 2 * Cust.pre_approved_limit cust ->
  salary_evidence data = true ->
  compute_emi (requested_amount data) (annual_rate data) (tenure_months data) = Ok e ->
  float_of_int (effective_salary cust data) = Ok s ->
  underwrite cust data =
    Ok (ok (if fleb e (fmul half s)
            then outcome_affordable e else outcome_unaffordable e))
  /\ emi (outcome_affordable e) = Some e
  /\ emi (outcome_unaffordable e) = Some e.
Proof.
  intros Hs Hlo Hhi Hev He Hsal.
  rewrite affordability_eq by assumption.
  rewrite He. cbn. rewrite Hsal. cbn. auto.
Qed.

(** C3, amended.  Score at least 700, amount at most the limit (the
    limit itself included), and an EMI calculation on the request's
    amount, rate and tenure that returns [e]: the answer is approve with
    reason [within_pre_approved_limit] and [e] in the payload.  The
    salary fields do not occur in the hypotheses: no salary check is
    made. *)
Theorem within_limit_approves cust data e :
  700 <= Cust.credit_score cust ->
  requested_amount data <= Cust.pre_approved_limit cust ->
  compute_emi (requested_amount data) (annual_rate data) (tenure_months data) = Ok e ->
  underwrite cust data = Ok (ok (outcome_within_limit e)).
Proof.
  intros Hs Hle He.
  rewrite within_limit_eq by assumption.
  rewrite He. reflexivity.
Qed.

(** C4. Score at least 700, amount above the limit and at most twice
    the limit (twice the limit included), neither [salary_provided] nor
    [salary_slip_resource] given: the answer is [require_salary_slip]
    with reason [salary_slip_required] and no [emi] key. *)
Theorem slip_required cust data :
  700 <= Cust.credit_score cust ->
  Cust.pre_approved_limit cust < requested_amount data ->
  requested_amount data <= 2 * Cust.pre_approved_limit cust ->
  salary_provided data = None ->
  salary_slip_resource data = None ->
  underwrite cust data = Ok (ok outcome_slip_required)
  /\ emi (F:=F) outcome_slip_required = None.
Proof.
  intros Hs Hlo Hhi Hsal Hslip. split; [|reflexivity].
  apply slip_required_falsy; try assumption.
  unfold salary_evidence. rewrite Hslip, Hsal. reflexivity.
Qed.

(** C5. For a customer of the directory with score at least 700, an
    amount above twice the limit is rejected with reason
    [amount_exceeds_2x_pre_approved] and the limit in the payload. *)
Theorem exceeds_2x_rejects cust data :
  CUSTOMERS !! customer_id data = Some cust ->
  700 <= Cust.credit_score cust ->
  2 * Cust.pre_approved_limit cust < requested_amount data ->
  call_underwrite_loan data
  = Ok (ok (outcome_exceeds_2x (Cust.pre_approved_limit cust))).
Proof.
  intros Hc Hs Hhi. unfold call_underwrite_loan. rewrite Hc.
  pose proof (CUSTOMERS_limit_pos _ _ Hc) as Hpos.
  unfold underwrite. rewrite (score_ok _ Hs).
  assert ((requested_amount data <=? Cust.pre_approved_limit cust) = false) as ->
    by (apply Z.leb_gt; lia).
  apply Z.leb_gt in Hhi. rewrite Hhi. reflexivity.
Qed.

(** C10, amended.  There is no positivity check: for a customer of the
    directory with score at least 700, an amount of zero or below is
    within the limit, and when the EMI calculation on that amount
    returns [e] the request is approved with reason
    [within_pre_approved_limit] and [e] in the payload. *)
Theorem nonpositive_amount_approved cust data e :
  CUSTOMERS !! customer_id data = Some cust ->
  700 <= Cust.credit_score cust ->
  requested_amount data <= 0 ->
  compute_emi (requested_amount data) (annual_rate data) (tenure_months data) = Ok e ->
  requested_amount data <= Cust.pre_approved_limit cust
  /\ call_underwrite_loan data = Ok (ok (outcome_within_limit e)).
Proof.
  intros Hc Hs Hneg He.
  pose proof (CUSTOMERS_limit_pos _ _ Hc) as Hpos.
  assert (Hle : requested_amount data <= Cust.pre_approved_limit cust) by lia.
  split; [exact Hle|].
  unfold call_underwrite_loan. rewrite Hc.
  rewrite within_limit_eq by assumption.
  rewrite He. reflexivity.
Qed.

End Decision.

(** ** Binary64: the program as it runs *)

Section OnBinary64.

Import Binary64.

(** The floats that compare equal to 0. *)
Lemma float_zero_cases (x : float) :
  PrimFloat.eqb x 0%float = true -> x = 0%float \/ x = (-0)%float.
Proof.
  rewrite FloatAxioms.eqb_spec. intros E.
  rewrite <- (SF2Prim_Prim2SF x).
  destruct (Prim2SF x) as [[|] | [|] | | [|] m e]; try discriminate E.
  - right; reflexivity.
  - left; reflexivity.
Qed.

Lemma monthly_rate_b64 (rate : float) :
  monthly_rate rate = Ok (rate / 12 / 100)%float.
Proof. reflexivity. Qed.

Lemma compute_emi_zero_rate_b64 (P n : Z) (rate : float) :
  PrimFloat.eqb rate 0%float = true ->
  compute_emi P rate n = long_true_divide P n.
Proof.
  intros E. destruct (float_zero_cases rate E) as [-> | ->]; reflexivity.
Qed.

(** When the monthly rate is not 0 the annual rate is not 0 either, and
    the program and the specification's formula are the same
    computation. *)
Lemma compute_emi_general_b64 (P n : Z) (rate : float) :
  PrimFloat.eqb (rate / 12 / 100)%float 0%float = false ->
  compute_emi P rate n = emi_spec P rate n.
Proof.
  intros Hr.
  assert (Hrate : PrimFloat.eqb rate 0%float = false).
  { destruct (PrimFloat.eqb rate 0%float) eqn:E; [|reflexivity].
    destruct (float_zero_cases rate E) as [-> | ->]; discriminate Hr. }
  unfold compute_emi, emi_spec, monthly_rate.
  cbn [fdiv feqb ops lit]. unfold float_div.
  change (PrimFloat.eqb (round_Z 12) 0%float) with false.
  change (PrimFloat.eqb (round_Z 100) 0%float) with false.
  change (round_Z 0) with 0%float.
  change (round_Z 12) with 12%float. change (round_Z 100) with 100%float.
  cbn [mbind res_bind]. rewrite Hr, Hrate. reflexivity.
Qed.

(** The scenarios of the specification's section 8 on customer CUST001. *)
Example scenario_A :
  call_underwrite_loan (request "CUST001" 300000 36 12%float None None)
  = Ok (ok (outcome_within_limit 9964.292943855351%float)).
Proof. vm_compute. reflexivity. Qed.

Example scenario_B :
  call_underwrite_loan (request "CUST001" 450000 36 12%float None None)
  = Ok (ok outcome_slip_required).
Proof. vm_compute. reflexivity. Qed.

Example scenario_C :
  call_underwrite_loan (request "CUST001" 450000 36 12%float (Some 60000) None)
  = Ok (ok (outcome_affordable 14946.439415783025%float)).
Proof. vm_compute. reflexivity. Qed.

Example scenario_D :
  call_underwrite_loan (request "CUST001" 700000 36 12%float None None)
  = Ok (ok (outcome_exceeds_2x 300000)).
Proof. vm_compute. reflexivity. Qed.

(** An instalment above half the salary is rejected. *)
Example scenario_unaffordable :
  call_underwrite_loan (request "CUST001" 600000 12 12%float (Some 60000) None)
  = Ok (ok (outcome_unaffordable 53309.273207005004%float)).
Proof. vm_compute. reflexivity. Qed.

(** A [salary_provided] of 0 beside a slip falls back to the salary on
    file, 60000. *)
Example scenario_zero_salary_with_slip :
  call_underwrite_loan
    (request "CUST001" 450000 36 12%float (Some 0) (Some "resource://slip.pdf"%string))
  = Ok (ok (outcome_affordable 14946.439415783025%float)).
Proof. vm_compute. reflexivity. Qed.

Lemma credit_floor_rejects_witness :
  underwrite cust004 (request "CUST004" 150000 36 12%float None None)
  = Ok (ok (outcome_credit_floor 690)).
Proof.
  apply (credit_floor_rejects cust004 (request "CUST004" 150000 36 12%float None None)).
  reflexivity.
Defined.

Lemma affordability_decides_witness :
  underwrite cust001 (request "CUST001" 450000 36 12%float (Some 60000) None)
  = Ok (ok (outcome_affordable 14946.439415783025%float))
  /\ emi (outcome_affordable 14946.439415783025%float) = Some 14946.439415783025%float
  /\ emi (outcome_unaffordable 14946.439415783025%float) = Some 14946.439415783025%float.
Proof.
  refine (affordability_decides cust001
            (request "CUST001" 450000 36 12%float (Some 60000) None)
            14946.439415783025%float 60000%float _ _ _ _ _ _).
  - vm_compute. discriminate.
  - reflexivity.
  - vm_compute. discriminate.
  - reflexivity.
  - vm_compute. reflexivity.
  - vm_compute. reflexivity.
Defined.

Lemma within_limit_approves_witness :
  underwrite cust001 (request "CUST001" 300000 36 12%float None None)
  = Ok (ok (outcome_within_limit 9964.292943855351%float)).
Proof.
  apply (within_limit_approves cust001 (request "CUST001" 300000 36 12%float None None)).
  - vm_compute. discriminate.
  - vm_compute. discriminate.
  - vm_compute. reflexivity.
Defined.

Lemma slip_required_witness :
  underwrite cust001 (request "CUST001" 600000 36 12%float None None)
  = Ok (ok outcome_slip_required)
  /\ emi (F:=float) outcome_slip_required = None.
Proof.
  apply (slip_required cust001 (request "CUST001" 600000 36 12%float None None)).
  - vm_compute. discriminate.
  - reflexivity.
  - vm_compute. discriminate.
  - reflexivity.
  - reflexivity.
Defined.

Lemma exceeds_2x_rejects_witness :
  call_underwrite_loan (request "CUST001" 700000 36 12%float None None)
  = Ok (ok (outcome_exceeds_2x 300000)).
Proof.
  apply (exceeds_2x_rejects cust001 (request "CUST001" 700000 36 12%float None None)).
  - reflexivity.
  - vm_compute. discriminate.
  - reflexivity.
Defined.

Lemma nonpositive_amount_approved_witness :
  -120000 <= Cust.pre_approved_limit cust001
  /\ call_underwrite_loan (request "CUST001" (-120000) 12 12%float None None)
     = Ok (ok (outcome_within_limit (-10661.854641401)%float)).
Proof.
  apply (nonpositive_amount_approved cust001
           (request "CUST001" (-120000) 12 12%float None None)).
  - reflexivity.
  - vm_compute. discriminate.
  - vm_compute. discriminate.
  - vm_compute. reflexivity.
Defined.

(** C3, as stated, fails: with score 745 and the amount at the limit, a
    tenure of 0 raises [ZeroDivisionError], and so does a tenure of 36
    with an annual rate of 1e-14, for which [1 + r] rounds to 1 and the
    denominator is 0. *)
Lemma within_limit_can_raise :
  700 <= Cust.credit_score cust001
  /\ requested_amount zero_tenure_request <= Cust.pre_approved_limit cust001
  /\ underwrite cust001 zero_tenure_request = Raise ZeroDivisionError
  /\ requested_amount tiny_rate_request <= Cust.pre_approved_limit cust001
  /\ 1 <= tenure_months tiny_rate_request
  /\ PrimFloat.ltb 0 (annual_rate tiny_rate_request) = true
  /\ underwrite cust001 tiny_rate_request = Raise ZeroDivisionError.
Proof. vm_compute. repeat split; discriminate. Qed.

(** C2, as stated, fails: in the second bracket with a salary of 60000
    provided, a tenure of 0 raises [ZeroDivisionError], and so does an
    annual rate of 1e-14 over 36 months; and a [salary_provided] of 0
    with no slip is answered [require_salary_slip], not decided on the
    salary on file. *)
Lemma affordability_can_raise :
  700 <= Cust.credit_score cust001
  /\ Cust.pre_approved_limit cust001 < 450000 <= 2 * Cust.pre_approved_limit cust001
  /\ underwrite cust001 (request "CUST001" 450000 0 12%float (Some 60000) None)
     = Raise ZeroDivisionError
  /\ underwrite cust001 (request "CUST001" 450000 36 1e-14%float (Some 60000) None)
     = Raise ZeroDivisionError
  /\ underwrite cust001 (request "CUST001" 450000 36 12%float (Some 0) None)
     = Ok (ok outcome_slip_required).
Proof. vm_compute. repeat split; discriminate. Qed.

(** C10, as stated, fails: with score 745, an amount of 0 over a tenure
    of 0 raises [ZeroDivisionError], a negative amount with an annual
    rate of 1e-14 raises it too, and an amount of [-10^400] raises
    [OverflowError] when it is converted to a float. *)
Lemma nonpositive_amount_can_raise :
  700 <= Cust.credit_score cust001
  /\ call_underwrite_loan (request "CUST001" 0 0 12%float None None)
     = Raise ZeroDivisionError
  /\ call_underwrite_loan (request "CUST001" (-120000) 12 1e-14%float None None)
     = Raise ZeroDivisionError
  /\ call_underwrite_loan (request "CUST001" (- 10 ^ 400) 36 12%float None None)
     = Raise OverflowError.
Proof. vm_compute. repeat split; discriminate. Qed.

(** C7. A known customer and a tenure of at least 1 do not keep the
    endpoint from raising: an annual rate of 1e-14 gives [1 + r = 1], a
    zero denominator and [ZeroDivisionError]; a rate of -2400 over 2
    months gives [(1 + r) ** 2 = 1] and the same; a rate of 12000 over
    360 months takes [**] out of range, which is [OverflowError]. *)
Theorem wellformed_request_can_raise :
  CUSTOMERS !! customer_id tiny_rate_request = Some cust001
  /\ 1 <= tenure_months tiny_rate_request
  /\ call_underwrite_loan tiny_rate_request = Raise ZeroDivisionError
  /\ call_underwrite_loan (request "CUST001" 300000 2 (-2400)%float None None)
     = Raise ZeroDivisionError
  /\ call_underwrite_loan huge_rate_request = Raise OverflowError.
Proof. vm_compute. repeat split; discriminate. Qed.

(** The guard is on the monthly rate: the smallest positive float is an
    annual rate other than 0, yet the monthly rate underflows to 0 and
    [compute_emi] returns [P / n], where the formula evaluated in
    binary64 divides by zero. *)
Lemma emi_guard_tests_monthly_rate :
  PrimFloat.eqb rate_min 0%float = false
  /\ compute_emi 300000 rate_min 36 = long_true_divide 300000 36
  /\ long_true_divide 300000 36 = Ok (300000 / 36)%float
  /\ emi_spec 300000 rate_min 36 = Raise ZeroDivisionError.
Proof. vm_compute. repeat split. Qed.

(** Two positive annual rates, one twice the other, with the same EMI:
    both monthly rates underflow to 0. *)
Lemma emi_rate_plateau :
  PrimFloat.ltb 0%float rate_min = true
  /\ PrimFloat.ltb rate_min rate_min2 = true
  /\ compute_emi 300000 rate_min 36 = Ok (300000 / 36)%float
  /\ compute_emi 300000 rate_min2 36 = Ok (300000 / 36)%float.
Proof. vm_compute. repeat split. Qed.

(** [1.0 ** n] is [1.0] for every [n] that converts to a float; the C
    library is not called. *)
Lemma float_pow_one (n : Z) (nf : float) :
  long_as_double n = Ok nf -> float_pow 1%float n = Ok 1%float.
Proof.
  intros H. unfold float_pow. rewrite H. cbn [mbind res_bind].
  destruct (PrimFloat.eqb nf 0%float); reflexivity.
Qed.

(** What the guard [r == 0] misses: a monthly rate that is not 0 and is
    lost in [1 + r].  Then [(1 + r) ** n] is [1.0], the denominator is
    [0.0], and the function raises, for every amount and tenure that
    convert to a float. *)
Lemma compute_emi_absorbed_rate (P n : Z) (rate Pf nf : float) :
  PrimFloat.eqb (rate / 12 / 100)%float 0%float = false ->
  (1 + rate / 12 / 100)%float = 1%float ->
  long_as_double P = Ok Pf ->
  long_as_double n = Ok nf ->
  compute_emi P rate n = Raise ZeroDivisionError.
Proof.
  intros Hr H1 HP Hn. unfold compute_emi.
  change (fdiv rate (lit 12)) with (Ok (rate / 12)%float).
  cbn [mbind res_bind].
  change (fdiv (rate / 12)%float (lit 100)) with (Ok (rate / 12 / 100)%float).
  cbn [mbind res_bind].
  change (feqb (rate / 12 / 100)%float (lit 0))
    with (PrimFloat.eqb (rate / 12 / 100)%float 0%float).
  rewrite Hr.
  change (float_of_int P) with (long_as_double P). rewrite HP.
  cbn [mbind res_bind].
  change (fadd (lit 1) (rate / 12 / 100)%float) with (1 + rate / 12 / 100)%float.
  rewrite H1.
  change (fpow 1%float n) with (float_pow 1%float n).
  rewrite (float_pow_one n nf Hn). reflexivity.
Qed.

End OnBinary64.

(** ** Exact arithmetic: the formula as a rational function *)

Section OnExact.

Import Exact.
Local Open Scope Q_scope.

Lemma monthly_pos rate : 0 < rate -> 0 < monthly rate.
Proof.
  intros. unfold monthly.
  apply Qlt_shift_div_l; [reflexivity|].
  apply Qlt_shift_div_l; [reflexivity|]. lra.
Qed.

Lemma monthly_scale rate : monthly rate == rate * (1 # 1200).
Proof. unfold monthly. field. Qed.

Lemma monthly_lt r1 r2 : r1 < r2 -> monthly r1 < monthly r2.
Proof. intros. rewrite !monthly_scale. lra. Qed.

(** Over the rationals the zero test on the monthly rate and the zero
    test on the annual rate agree. *)
Lemma monthly_zero rate :
  Qeq_bool (monthly rate) (inject_Z 0) = Qeq_bool rate (inject_Z 0).
Proof.
  pose proof (monthly_scale rate) as E.
  destruct (Qeq_bool rate (inject_Z 0)) eqn:Hr.
  - apply Qeq_bool_iff in Hr. apply Qeq_bool_iff. rewrite E, Hr. reflexivity.
  - apply Qeq_bool_neq in Hr.
    destruct (Qeq_bool (monthly rate) (inject_Z 0)) eqn:Hm; [|reflexivity].
    apply Qeq_bool_iff in Hm. exfalso. apply Hr.
    rewrite E in Hm. change (inject_Z 0) with 0 in *. lra.
Qed.

Lemma compute_emi_unfold (P : Z) (rate : Q) (n : Z) :
  compute_emi P rate n =
  if Qeq_bool (monthly rate) (inject_Z 0) then Q_truediv P n
  else
    pw ← Q_pow (inject_Z 1 + monthly rate) n;
    pw' ← Q_pow (inject_Z 1 + monthly rate) n;
    Q_div (inject_Z P * monthly rate * pw) (pw' - inject_Z 1).
Proof. reflexivity. Qed.

Lemma compute_emi_is_spec_exact (P : Z) (rate : Q) (n : Z) :
  compute_emi P rate n = emi_spec P rate n.
Proof.
  rewrite compute_emi_unfold, monthly_zero.
  unfold emi_spec. cbn [feqb ops lit int_truediv].
  destruct (Qeq_bool rate (inject_Z 0)); reflexivity.
Qed.

Lemma growth_gt_1 r n : 0 < r -> (0 < n)%Z -> 1 < (inject_Z 1 + r) ^ n.
Proof.
  intros Hr Hn. apply Qpower_1_lt; [|assumption].
  change (inject_Z 1) with 1. lra.
Qed.

Lemma compute_emi_pos_rate (P : Z) (rate : Q) (n : Z) :
  0 < rate -> (1 <= n)%Z ->
  compute_emi P rate n = Ok (amortised P (monthly rate) n).
Proof.
  intros Hr Hn. rewrite compute_emi_unfold.
  pose proof (monthly_pos _ Hr) as Hm.
  pose proof (growth_gt_1 _ n Hm ltac:(lia)) as Hg.
  destruct (Qeq_bool (monthly rate) (inject_Z 0)) eqn:E.
  { apply Qeq_bool_iff in E. change (inject_Z 0) with 0 in E. lra. }
  unfold Q_pow.
  assert ((n <? 0)%Z = false) as -> by (apply Z.ltb_ge; lia).
  cbn [andb mbind res_bind]. unfold Q_div.
  destruct (Qeq_bool _ 0) eqn:E2; [|reflexivity].
  apply Qeq_bool_iff in E2. change (inject_Z 1) with 1 in *. lra.
Qed.

Lemma compute_emi_zero_rate (P : Z) (rate : Q) (n : Z) :
  rate == 0 -> (1 <= n)%Z ->
  compute_emi P rate n = Ok (inject_Z P / inject_Z n).
Proof.
  intros Hr Hn. rewrite compute_emi_unfold, monthly_zero.
  assert (Qeq_bool rate (inject_Z 0) = true) as -> by (apply Qeq_bool_iff; exact Hr).
  unfold Q_truediv.
  assert ((n =? 0)%Z = false) as -> by (apply Z.eqb_neq; lia).
  reflexivity.
Qed.

Lemma inject_Z_pos (z : Z) : (0 < z)%Z -> 0 < inject_Z z.
Proof. intros. change 0 with (inject_Z 0). rewrite <- Zlt_Qlt. assumption. Qed.

Lemma inject_Z_nonneg (z : Z) : (0 <= z)%Z -> 0 <= inject_Z z.
Proof. intros. change 0 with (inject_Z 0). rewrite <- Zle_Qle. assumption. Qed.

Lemma amortised_nonneg (P : Z) (r : Q) (n : Z) :
  (0 <= P)%Z -> 0 < r -> (1 <= n)%Z -> 0 <= amortised P r n.
Proof.
  intros HP Hr Hn. unfold amortised.
  pose proof (growth_gt_1 r n Hr ltac:(lia)) as G.
  pose proof (inject_Z_nonneg P HP) as HPq.
  change (inject_Z 1) with 1 in *.
  apply Qle_shift_div_l; [lra|]. rewrite Qmult_0_l.
  repeat apply Qmult_le_0_compat; lra.
Qed.

(** Cross-multiplied comparison of two quotients with positive
    denominators. *)
Lemma Qdiv_lt_cross x1 y1 x2 y2 :
  0 < y1 -> 0 < y2 -> x1 * y2 < x2 * y1 -> x1 / y1 < x2 / y2.
Proof.
  intros H1 H2 H.
  apply Qlt_shift_div_l; [assumption|].
  assert (E : x1 / y1 * y2 == x1 * y2 / y1) by (field; lra).
  rewrite E. apply Qlt_shift_div_r; assumption.
Qed.

Lemma amortised_decreasing_in_n (P : Z) (r : Q) (n1 n2 : Z) :
  (0 < P)%Z -> 0 < r -> (1 <= n1)%Z -> (n1 < n2)%Z ->
  amortised P r n2 < amortised P r n1.
Proof.
  intros HP Hr H1 H12. unfold amortised.
  pose proof (growth_gt_1 r n1 Hr ltac:(lia)) as G1.
  pose proof (growth_gt_1 r n2 Hr ltac:(lia)) as G2.
  assert (G12 : (inject_Z 1 + r) ^ n1 < (inject_Z 1 + r) ^ n2).
  { apply Qpower_lt_compat_l; [assumption|]. change (inject_Z 1) with 1. lra. }
  pose proof (inject_Z_pos P HP) as HPq.
  change (inject_Z 1) with 1 in *.
  set (A1 := (1 + r) ^ n1) in *. set (A2 := (1 + r) ^ n2) in *.
  assert (0 < inject_Z P * r) as Hc by (apply Qmult_lt_0_compat; lra).
  apply Qdiv_lt_cross; [lra | lra |].
  set (c := inject_Z P * r) in *. nra.
Qed.

Lemma Qpower_succ x (k : nat) : x ^ Z.of_nat (S k) == x * x ^ Z.of_nat k.
Proof.
  rewrite Nat2Z.inj_succ. unfold Z.succ.
  rewrite Qpower_plus' by lia. rewrite Qpower_1_r. ring.
Qed.

Lemma geo_closed x k : (x - 1) * geo x k == x ^ Z.of_nat k - 1.
Proof.
  induction k as [|k IH].
  - cbn [geo]. change (x ^ Z.of_nat 0) with 1. ring.
  - rewrite Qpower_succ. cbn [geo].
    rewrite Qmult_plus_distr_r, IH. ring.
Qed.

Lemma geo_nonneg x k : 0 < x -> 0 <= geo x k.
Proof.
  intros Hx. induction k as [|k IH]; cbn [geo]; [lra|].
  pose proof (Qpower_0_lt x (Z.of_nat k) Hx). lra.
Qed.

(** One more term: from [a^k G_b <= b^k G_a] to the strict inequality
    at [k + 1]. *)
Lemma geo_cross_step a b k :
  0 < a -> a < b ->
  a ^ Z.of_nat k * geo b k <= b ^ Z.of_nat k * geo a k ->
  a ^ Z.of_nat (S k) * geo b (S k) < b ^ Z.of_nat (S k) * geo a (S k).
Proof.
  intros Ha Hab IH.
  assert (Hb : 0 < b) by lra.
  rewrite !Qpower_succ. cbn [geo].
  pose proof (Qpower_0_lt a (Z.of_nat k) Ha) as HA.
  pose proof (Qpower_0_lt b (Z.of_nat k) Hb) as HB.
  pose proof (geo_nonneg a k Ha) as HG.
  set (A := a ^ Z.of_nat k) in *. set (B := b ^ Z.of_nat k) in *.
  set (Ga := geo a k) in *. set (Gb := geo b k) in *.
  assert (0 < (b - a) * (B * (Ga + A)))
    by (apply Qmult_lt_0_compat; [lra | apply Qmult_lt_0_compat; lra]).
  assert (0 <= a * (B * Ga - A * Gb))
    by (apply Qmult_le_0_compat; lra).
  assert (K : b * B * (Ga + A) - a * A * (Gb + B)
              == a * (B * Ga - A * Gb) + (b - a) * (B * (Ga + A))) by ring.
  lra.
Qed.

(** The heart of monotonicity in the rate: for [0 < a < b] and
    [k >= 1], [a^k (1 + b + ... + b^(k-1)) < b^k (1 + a + ... + a^(k-1))]. *)
Lemma geo_cross a b k :
  0 < a -> a < b ->
  a ^ Z.of_nat (S k) * geo b (S k) < b ^ Z.of_nat (S k) * geo a (S k).
Proof.
  intros Ha Hab. induction k as [|k IH].
  - apply geo_cross_step; [assumption..|].
    cbn [geo]. rewrite !Qmult_0_r. apply Qle_refl.
  - apply geo_cross_step; [assumption..|]. apply Qlt_le_weak, IH.
Qed.

Lemma amortised_increasing_in_r (P : Z) (r1 r2 : Q) (n : Z) :
  (0 < P)%Z -> 0 < r1 -> r1 < r2 -> (1 <= n)%Z ->
  amortised P r1 n < amortised P r2 n.
Proof.
  intros HP H1 H12 Hn. unfold amortised.
  pose proof (growth_gt_1 r1 n H1 ltac:(lia)) as G1.
  pose proof (growth_gt_1 r2 n ltac:(lra) ltac:(lia)) as G2.
  pose proof (inject_Z_pos P HP) as HPq.
  change (inject_Z 1) with 1 in *.
  destruct (Z_of_nat_complete n ltac:(lia)) as [k ->].
  destruct k as [|k]; [lia|].
  pose proof (geo_cross (1 + r1) (1 + r2) k ltac:(lra) ltac:(lra)) as Hx.
  pose proof (geo_closed (1 + r1) (S k)) as C1.
  pose proof (geo_closed (1 + r2) (S k)) as C2.
  set (A := (1 + r1) ^ Z.of_nat (S k)) in *.
  set (B := (1 + r2) ^ Z.of_nat (S k)) in *.
  set (Ga := geo (1 + r1) (S k)) in *. set (Gb := geo (1 + r2) (S k)) in *.
  apply Qdiv_lt_cross; [lra | lra |].
  assert (E1 : A - 1 == r1 * Ga) by (rewrite <- C1; ring).
  assert (E2 : B - 1 == r2 * Gb) by (rewrite <- C2; ring).
  rewrite E1, E2.
  assert (0 < inject_Z P * r1 * r2)
    by (repeat apply Qmult_lt_0_compat; lra).
  assert (K : inject_Z P * r2 * B * (r1 * Ga) - inject_Z P * r1 * A * (r2 * Gb)
              == inject_Z P * r1 * r2 * (B * Ga - A * Gb)) by ring.
  assert (0 < inject_Z P * r1 * r2 * (B * Ga - A * Gb))
    by (apply Qmult_lt_0_compat; lra).
  lra.
Qed.

(** In exact arithmetic the calculation returns for every rate that is
    not negative and every tenure of at least 1. *)
Lemma compute_emi_returns_exact (P : Z) (rate : Q) (n : Z) :
  0 <= rate -> (1 <= n)%Z -> exists e, compute_emi P rate n = Ok e.
Proof.
  intros Hrate Hn.
  destruct (Qlt_le_dec 0 rate) as [Hpos | Hle].
  - eexists. apply compute_emi_pos_rate; assumption.
  - eexists. apply compute_emi_zero_rate; [apply Qle_antisym|]; assumption.
Qed.

(** So does the endpoint, for a known customer: at a rate that is not
    negative, the exceptions seen on binary64 come from rounding and
    range. *)
Lemma endpoint_returns_exact (data : UnderwriteInput Q) (cust : Cust.t) :
  CUSTOMERS !! customer_id data = Some cust ->
  (1 <= tenure_months data)%Z -> 0 <= annual_rate data ->
  exists resp, call_underwrite_loan data = Ok resp.
Proof.
  intros Hc Hn Hrate. unfold call_underwrite_loan. rewrite Hc.
  destruct (compute_emi_returns_exact (requested_amount data) _ _ Hrate Hn) as [e He].
  unfold underwrite. rewrite He. cbn [mbind res_bind float_of_int ops].
  repeat match goal with
         | |- context [if ?b then _ else _] => destruct b
         end; eexists; reflexivity.
Qed.

(** The two readings of the function side by side, for a tenure of at
    least 1.  On binary64 the branch is chosen by the monthly rate after
    rounding: [P / n], the division of the two ints, when it is 0, the
    expression of the specification otherwise.  Over the rationals,
    which the program does not compute with, the function is the
    specification's for every rate, and for a principal and a rate that
    are not negative its value is not negative: [P / n] at rate 0,
    [P * r * (1+r)^n / ((1+r)^n - 1)] above. *)
Theorem compute_emi_formula (P n : Z) :
  (1 <= n)%Z ->
  (forall rate : float,
     PrimFloat.eqb rate 0%float = true ->
     compute_emi P rate n = Binary64.long_true_divide P n)
  /\ Binary64.long_true_divide P n <> Raise ZeroDivisionError
  /\ (forall rate : float,
     PrimFloat.eqb (rate / 12 / 100)%float 0%float = true ->
     compute_emi P rate n = Binary64.long_true_divide P n)
  /\ (forall rate : float,
     PrimFloat.eqb (rate / 12 / 100)%float 0%float = false ->
     compute_emi P rate n = emi_spec P rate n)
  /\ (forall rate : Q, compute_emi P rate n = emi_spec P rate n)
  /\ (forall rate : Q,
     (0 <= P)%Z -> 0 <= rate ->
     exists e, compute_emi P rate n = Ok e /\ 0 <= e
       /\ (rate == 0 -> e = inject_Z P / inject_Z n)
       /\ (0 < rate -> e = amortised P (monthly rate) n)).
Proof.
  intros Hn. repeat split.
  - intros rate. apply compute_emi_zero_rate_b64.
  - unfold Binary64.long_true_divide.
    assert ((n =? 0)%Z = false) as -> by (apply Z.eqb_neq; lia).
    destruct (PrimFloat.is_infinity _); discriminate.
  - intros rate Hr. unfold compute_emi.
    change (fdiv rate (lit 12)) with (Ok (rate / 12)%float).
    cbn [mbind res_bind].
    change (fdiv (rate / 12)%float (lit 100)) with (Ok (rate / 12 / 100)%float).
    cbn [mbind res_bind].
    change (feqb (rate / 12 / 100)%float (lit 0))
      with (PrimFloat.eqb (rate / 12 / 100)%float 0%float).
    rewrite Hr. reflexivity.
  - intros rate. apply compute_emi_general_b64.
  - intros rate. apply compute_emi_is_spec_exact.
  - intros rate HP Hrate.
    destruct (Qlt_le_dec 0 rate) as [Hpos | Hle].
    + exists (amortised P (monthly rate) n).
      split; [apply compute_emi_pos_rate; assumption|].
      split; [apply amortised_nonneg; [assumption | apply monthly_pos; assumption | assumption]|].
      split; [intros E; rewrite E in Hpos; discriminate Hpos | reflexivity].
    + assert (E : rate == 0) by (apply Qle_antisym; assumption).
      exists (inject_Z P / inject_Z n).
      split; [apply compute_emi_zero_rate; assumption|].
      split.
      { apply Qle_shift_div_l; [apply inject_Z_pos; lia|].
        rewrite Qmult_0_l. apply inject_Z_nonneg; assumption. }
      split; [reflexivity|].
      intros Hpos. rewrite E in Hpos. discriminate Hpos.
Qed.

Lemma compute_emi_formula_witness :
  compute_emi 300000 0%float 36 = Binary64.long_true_divide 300000 36.
Proof.
  refine (proj1 (compute_emi_formula 300000 36 _) 0%float _).
  - vm_compute. discriminate.
  - reflexivity.
Defined.

(** The formula itself is monotone.  Over the rationals, which the
    program does not compute with, for a positive principal, a positive
    rate and a tenure of at least 1, a higher rate gives a strictly
    higher value and a longer tenure a strictly lower one. *)
Theorem emi_monotone_exact (P : Z) (rate1 rate2 : Q) (n1 n2 : Z) :
  (0 < P)%Z -> 0 < rate1 -> rate1 < rate2 -> (1 <= n1)%Z -> (n1 < n2)%Z ->
  exists e e_rate e_tenure,
    compute_emi P rate1 n1 = Ok e
    /\ compute_emi P rate2 n1 = Ok e_rate
    /\ compute_emi P rate1 n2 = Ok e_tenure
    /\ e < e_rate
    /\ e_tenure < e.
Proof.
  intros HP H1 H12 Hn1 Hn12.
  exists (amortised P (monthly rate1) n1),
         (amortised P (monthly rate2) n1),
         (amortised P (monthly rate1) n2).
  split; [apply compute_emi_pos_rate; [assumption | lia]|].
  split; [apply compute_emi_pos_rate; [lra | lia]|].
  split; [apply compute_emi_pos_rate; [assumption | lia]|].
  split.
  - apply amortised_increasing_in_r; try assumption.
    + apply monthly_pos; assumption.
    + apply monthly_lt; assumption.
  - apply amortised_decreasing_in_n; try assumption.
    apply monthly_pos; assumption.
Qed.

Lemma emi_monotone_exact_witness :
  exists e e_rate e_tenure : Q,
    compute_emi 300000%Z 12 36%Z = Ok e
    /\ compute_emi 300000%Z 13 36%Z = Ok e_rate
    /\ compute_emi 300000%Z 12 48%Z = Ok e_tenure
    /\ e < e_rate
    /\ e_tenure < e.
Proof.
  apply (emi_monotone_exact 300000 12 13 36 48).
  - reflexivity.
  - reflexivity.
  - reflexivity.
  - vm_compute. discriminate.
  - reflexivity.
Defined.

End OnExact.

(** ** The formula and the program at small rates *)

Section SmallRates.

Local Open Scope Q_scope.

(** C6.  At a small positive annual rate the function does not return
    the value of [P * r * (1+r)^n / ((1+r)^n - 1)].  For 300000 over 36
    months that value, taken at the rational the float rate stands for,
    lies between 8333 and 8334, just above [300000 / 36]; at
    [rate_absorbed] the function raises [ZeroDivisionError], and at
    [rate_lo] it returns 11666.67. *)
Theorem emi_formula_lost_at_small_rates :
  (exists q, Q_of_float rate_absorbed = Some q /\ 0 < q
     /\ 8333 < amortised 300000 (monthly q) 36
     /\ amortised 300000 (monthly q) 36 < 8334)
  /\ compute_emi 300000 rate_absorbed 36 = Raise ZeroDivisionError
  /\ (exists q, Q_of_float rate_lo = Some q /\ 0 < q
     /\ 8333 < amortised 300000 (monthly q) 36
     /\ amortised 300000 (monthly q) 36 < 8334)
  /\ compute_emi 300000 rate_lo 36 = Ok 11666.666666666761%float.
Proof.
  split; [|split; [|split]].
  - eexists. split; [vm_compute; reflexivity|].
    split; [|split]; vm_compute; reflexivity.
  - vm_compute. reflexivity.
  - eexists. split; [vm_compute; reflexivity|].
    split; [|split]; vm_compute; reflexivity.
  - vm_compute. reflexivity.
Qed.

(** C8.  The function is not increasing in the rate: of two positive
    annual rates, for the same principal and tenure, the higher one is
    given the lower EMI, 6666.67 against 11666.67. *)
Theorem emi_falls_as_rate_rises :
  PrimFloat.ltb 0%float rate_lo = true
  /\ PrimFloat.ltb rate_lo rate_hi = true
  /\ compute_emi 300000 rate_lo 36 = Ok 11666.666666666761%float
  /\ compute_emi 300000 rate_hi 36 = Ok 6666.6666666667734%float
  /\ PrimFloat.ltb 6666.6666666667734%float 11666.666666666761%float = true.
Proof. vm_compute. repeat split. Qed.

End SmallRates.

(** ** The other handlers *)

Section OtherHandlers.

Lemma CUSTOMERS_keys (s : string) (cust : Cust.t) :
  CUSTOMERS !! s = Some cust -> good_key s cust.
Proof.
  revert s cust. change (map_Forall good_key CUSTOMERS).
  unfold CUSTOMERS.
  repeat (apply map_Forall_insert_2; [repeat split|]).
  apply map_Forall_empty.
Qed.

Lemma CUSTOMERS_key_truthy (s : string) (cust : Cust.t) :
  CUSTOMERS !! s = Some cust -> truthy (JStr s) = true.
Proof.
  intros Hc. destruct (CUSTOMERS_keys _ _ Hc) as (_ & _ & Hlen).
  destruct s; [discriminate Hlen | reflexivity].
Qed.

Lemma CUSTOMERS_get_found (cid : json) (cust : Cust.t) :
  CUSTOMERS_get cid = Returns (Some cust) <->
  cid = JStr (Cust.customer_id cust) /\ CUSTOMERS !! Cust.customer_id cust = Some cust.
Proof.
  split.
  - destruct cid; cbn; try discriminate. intros E. injection E as E.
    destruct (CUSTOMERS_keys _ _ E) as (<- & _). auto.
  - intros [-> Hc]. cbn. rewrite Hc. reflexivity.
Qed.

Lemma payload_get_some (payload : gmap string json) key v :
  payload !! key = Some v -> payload_get payload key = v.
Proof. unfold payload_get. intros ->. reflexivity. Qed.

Lemma payload_get_none (payload : gmap string json) key :
  payload !! key = None -> payload_get payload key = JNull.
Proof. unfold payload_get. intros ->. reflexivity. Qed.

(** [get_customer_info] returns a record exactly when the payload's
    [customer_id] is the str id of that record in the directory; the
    record returned carries the id that was asked for. *)
Theorem customer_info_found (payload : gmap string json) (cust : Cust.t) :
  call_get_customer_info payload = Returns ("ok"%string, cust) <->
  payload !! "customer_id" = Some (JStr (Cust.customer_id cust))
  /\ CUSTOMERS !! Cust.customer_id cust = Some cust.
Proof.
  unfold call_get_customer_info. split.
  - destruct (payload !! "customer_id") as [cid|] eqn:Hp.
    2: { rewrite (payload_get_none _ _ Hp). discriminate. }
    rewrite (payload_get_some _ _ _ Hp).
    destruct (truthy cid); [|discriminate]. cbn [negb].
    destruct (CUSTOMERS_get cid) as [[c|]|e] eqn:Hg; try discriminate.
    intros E. injection E as ->.
    apply CUSTOMERS_get_found in Hg as [-> Hc]. auto.
  - intros [Hp Hc]. rewrite (payload_get_some _ _ _ Hp).
    rewrite (CUSTOMERS_key_truthy _ _ Hc). cbn. rewrite Hc. reflexivity.
Qed.

Lemma unhashable_truthy v : unhashable v -> truthy v = true.
Proof. destruct v as [| | | | |[|x l]|[|x l]]; cbn; intros []; reflexivity. Qed.

Lemma unhashable_get v : unhashable v -> CUSTOMERS_get v = Raises TypeError.
Proof. destruct v as [| | | | |[|x l]|[|x l]]; cbn; intros []; reflexivity. Qed.

(** A non-empty list or dict as [customer_id] passes the [not cid] test
    and makes [CUSTOMERS.get] raise [TypeError], in each handler that
    looks the customer up in a dict payload. *)
Theorem unhashable_customer_id (payload : gmap string json) (v : json)
    (dir uuid pdf : string) (files : gmap string string) :
  payload !! "customer_id" = Some v -> unhashable v ->
  call_get_customer_info payload = Raises TypeError
  /\ call_get_credit_score payload = Raises TypeError
  /\ (truthy (payload_get payload "phone") = true ->
      call_verify_kyc payload = Raises TypeError)
  /\ (truthy (payload_get payload "amount") = true ->
      call_generate_sanction_letter dir uuid pdf payload files = (Raises TypeError, files)).
Proof.
  intros Hp Hv.
  unfold call_get_customer_info, call_get_credit_score, call_verify_kyc,
    call_generate_sanction_letter.
  rewrite (payload_get_some _ _ _ Hp).
  rewrite (unhashable_truthy _ Hv), (unhashable_get _ Hv). cbn [negb orb].
  repeat split; intros ->; reflexivity.
Qed.

(** For a known customer and a truthy phone, [verify_kyc] reports the
    address verified always, and the phone verified exactly when the
    phone given is the str on file. *)
Theorem kyc_verifies_phone_on_file (payload : gmap string json) (cust : Cust.t) :
  payload !! "customer_id" = Some (JStr (Cust.customer_id cust)) ->
  CUSTOMERS !! Cust.customer_id cust = Some cust ->
  truthy (payload_get payload "phone") = true ->
  exists verified,
    call_verify_kyc payload
    = Returns ("ok"%string, {| phone_verified := verified; address_verified := true |})
    /\ (verified = true <-> payload !! "phone" = Some (JStr (Cust.phone cust))).
Proof.
  intros Hp Hc Hphone.
  destruct (payload !! "phone") as [phone|] eqn:Hph.
  2: { rewrite (payload_get_none _ _ Hph) in Hphone. discriminate Hphone. }
  rewrite (payload_get_some _ _ _ Hph) in Hphone.
  unfold call_verify_kyc.
  rewrite (payload_get_some _ _ _ Hp), (payload_get_some _ _ _ Hph), Hphone.
  rewrite (CUSTOMERS_key_truthy _ _ Hc). cbn [negb orb CUSTOMERS_get]. rewrite Hc.
  eexists. split; [reflexivity|].
  destruct phone; cbn [str_eq_json]; try (split; [discriminate | intros E; discriminate E]).
  rewrite String.eqb_eq. split; [intros ->; reflexivity | intros E; injection E as ->; reflexivity].
Qed.

(** [get_credit_score] returns a score exactly when
    [get_customer_info] returns a record, and the score is that
    record's. *)
Theorem credit_score_agrees_with_info (payload : gmap string json) (score : Z) :
  call_get_credit_score payload = Returns ("ok"%string, score) <->
  exists cust, call_get_customer_info payload = Returns ("ok"%string, cust)
               /\ Cust.credit_score cust = score.
Proof.
  unfold call_get_credit_score, call_get_customer_info.
  destruct (truthy (payload_get payload "customer_id")); cbn [negb].
  - destruct (CUSTOMERS_get _) as [[c|]|e].
    + split.
      * intros E. injection E as <-. eauto.
      * intros (cust & E & <-). injection E as ->. reflexivity.
    + split; [discriminate | intros (? & E & _); discriminate E].
    + split; [discriminate | intros (? & E & _); discriminate E].
  - split; [discriminate | intros (? & E & _); discriminate E].
Qed.

(** *** Strings and paths *)

Lemma append_assoc (a b c : string) : (a +:+ b) +:+ c = a +:+ b +:+ c.
Proof.
  induction a as [|x a IH]; [reflexivity|].
  change (String x ((a +:+ b) +:+ c) = String x (a +:+ b +:+ c)).
  rewrite IH. reflexivity.
Qed.

Lemma append_inv_head (a b c : string) : a +:+ b = a +:+ c -> b = c.
Proof.
  induction a as [|x a IH]; [auto|].
  change (String x (a +:+ b) = String x (a +:+ c) -> b = c).
  intros E. injection E as E. auto.
Qed.

Lemma chars_append (a b : string) :
  list_ascii_of_string (a +:+ b) = list_ascii_of_string a ++ list_ascii_of_string b.
Proof.
  induction a as [|x a IH]; [reflexivity|].
  change (x :: list_ascii_of_string (a +:+ b)
          = x :: (list_ascii_of_string a ++ list_ascii_of_string b)).
  rewrite IH. reflexivity.
Qed.

Lemma no_sep_append (a b : string) : no_sep (a +:+ b) = no_sep a && no_sep b.
Proof. unfold no_sep. rewrite chars_append. apply forallb_app. Qed.

Lemma is_hex_no_sep (s : string) : is_hex s = true -> no_sep s = true.
Proof.
  unfold is_hex, no_sep. rewrite !forallb_forall. intros H ch Hin.
  specialize (H ch Hin). apply bool_decide_eq_true in H.
  destruct (Ascii.eqb_spec ch "/") as [->|]; [|reflexivity].
  cbn in H. intuition discriminate.
Qed.

Lemma path_join_relative (a b : string) :
  String.prefix "/" b = false -> path_join a b = dir_prefix a +:+ b.
Proof.
  intros Hb. unfold path_join, dir_prefix. rewrite Hb.
  destruct (_ || _); [reflexivity|]. rewrite append_assoc. reflexivity.
Qed.

(** Nothing after the last occurrence. *)
Lemma rfind_none (c : ascii) (p : list ascii) : rfind c p = None -> ~ In c p.
Proof.
  induction p as [|x p IH]; cbn; [auto|].
  destruct (rfind c p); [discriminate|].
  destruct (Ascii.eqb_spec x c); [discriminate|].
  intros _ [E | Hin]; [congruence | exact (IH eq_refl Hin)].
Qed.

Lemma rfind_last (c : ascii) (p : list ascii) (i : nat) :
  rfind c p = Some i -> ~ In c (drop (S i) p).
Proof.
  revert i. induction p as [|x p IH]; cbn; [discriminate|].
  intros i. destruct (rfind c p) as [j|] eqn:E.
  - intros [= <-]. apply (IH j eq_refl).
  - destruct (Ascii.eqb_spec x c); [|discriminate].
    intros [= <-]. cbn. apply rfind_none, E.
Qed.

Lemma rfind_at (c : ascii) (p : list ascii) (i : nat) :
  rfind c p = Some i -> exists t, drop i p = c :: t.
Proof.
  revert i. induction p as [|x p IH]; cbn; [discriminate|].
  intros i. destruct (rfind c p) as [j|] eqn:E.
  - intros [= <-]. apply (IH j eq_refl).
  - destruct (Ascii.eqb_spec x c) as [->|]; [|discriminate].
    intros [= <-]. eauto.
Qed.

Lemma in_drop {A} (x : A) (n : nat) (l : list A) : In x (drop n l) -> In x l.
Proof.
  revert l. induction n as [|n IH]; intros [|y l]; cbn; auto.
Qed.

Lemma not_in_drop {A} (x : A) (l : list A) (i j : nat) :
  (i <= j)%nat -> ~ In x (drop i l) -> ~ In x (drop j l).
Proof.
  intros Hij Hn Hin. apply Hn.
  replace j with (i + (j - i))%nat in Hin by lia.
  rewrite <- drop_drop in Hin. exact (in_drop _ _ _ Hin).
Qed.

Lemma prefix_head (c : ascii) (t : list ascii) :
  String.prefix (String c "") (string_of_list_ascii (c :: t)) = true.
Proof.
  change (String.prefix (String c "") (String c (string_of_list_ascii t)) = true).
  cbn [String.prefix]. destruct (ascii_dec c c); [|contradiction].
  destruct (string_of_list_ascii t); reflexivity.
Qed.

Lemma no_sep_chars (l : list ascii) :
  ~ In "/"%char l -> no_sep (string_of_list_ascii l) = true.
Proof.
  intros Hn. unfold no_sep. rewrite list_ascii_of_string_of_list_ascii.
  apply forallb_forall. intros ch Hin.
  destruct (Ascii.eqb_spec ch "/") as [->|]; [contradiction | reflexivity].
Qed.

(** The extension [splitext] returns: empty, or from a dot on with no
    separator in it. *)
Lemma splitext_ext (p : string) :
  (splitext p).2 = ""%string
  \/ (String.prefix "." (splitext p).2 = true /\ no_sep (splitext p).2 = true).
Proof.
  unfold splitext, rfind_index.
  set (chars := list_ascii_of_string p).
  destruct (rfind "." chars) as [d|] eqn:Hd.
  2: { destruct (rfind "/" chars); cbn -[Z.ltb];
       [destruct (_ <? _) eqn:E; [apply Z.ltb_lt in E; lia | auto] | auto]. }
  destruct (rfind "/" chars) as [s|] eqn:Hs.
  - destruct (Z.ltb_spec (Z.of_nat s) (Z.of_nat d)); [|auto].
    destruct (existsb _ _); [|auto]. right. cbn [snd].
    rewrite Nat2Z.id.
    destruct (rfind_at _ _ _ Hd) as [t Ht]. split.
    + rewrite Ht. apply prefix_head.
    + apply no_sep_chars. apply (not_in_drop _ _ (S s) d); [lia|].
      apply rfind_last, Hs.
  - destruct (Z.ltb_spec (-1) (Z.of_nat d)); [|auto].
    destruct (existsb _ _); [|auto]. right. cbn [snd].
    rewrite Nat2Z.id.
    destruct (rfind_at _ _ _ Hd) as [t Ht]. split.
    + rewrite Ht. apply prefix_head.
    + apply no_sep_chars. apply (not_in_drop _ _ 0 d); [lia|].
      cbn. apply rfind_none, Hs.
Qed.

Lemma append_empty_r (a : string) : a +:+ "" = a.
Proof.
  induction a as [|x a IH]; [reflexivity|].
  change (String x (a +:+ "") = String x a). rewrite IH. reflexivity.
Qed.

Lemma string_of_chars_app (l1 l2 : list ascii) :
  string_of_list_ascii (l1 ++ l2) = string_of_list_ascii l1 +:+ string_of_list_ascii l2.
Proof.
  induction l1 as [|x l1 IH]; [reflexivity|].
  change (String x (string_of_list_ascii (l1 ++ l2))
          = String x (string_of_list_ascii l1 +:+ string_of_list_ascii l2)).
  rewrite IH. reflexivity.
Qed.

(** [splitext] cuts its argument in two. *)
Lemma splitext_rejoins (p : string) : (splitext p).1 +:+ (splitext p).2 = p.
Proof.
  unfold splitext.
  destruct (_ <? _); [|apply append_empty_r].
  destruct (existsb _ _); [|apply append_empty_r].
  cbn [fst snd].
  rewrite <- string_of_chars_app, take_drop.
  apply string_of_list_ascii_of_string.
Qed.

(** *** The storage handlers *)

Lemma upload_inv dir uuid cid fname content files st r files' :
  call_upload_salary_slip dir uuid cid fname content files = (Returns (st, r), files') ->
  exists id cust ext,
    cid = Some id /\ CUSTOMERS !! id = Some cust
    /\ ext = (if String.eqb (splitext fname).2 "" then ".pdf"%string else (splitext fname).2)
    /\ st = "ok"%string
    /\ resource r = "resource://" +:+ "salary_" +:+ id +:+ "_" +:+ uuid +:+ ext
    /\ path r = dir_prefix dir +:+ "salary_" +:+ id +:+ "_" +:+ uuid +:+ ext
    /\ files' = <[path r := content]> files.
Proof.
  unfold call_upload_salary_slip.
  destruct cid as [id|]; [|cbn [truthy_str negb]; discriminate].
  destruct (truthy_str (Some id)) eqn:Ht; cbn [negb]; [|discriminate].
  change (default ""%string (Some id)) with id.
  destruct (CUSTOMERS !! id) as [cust|] eqn:Hc.
  2: { rewrite bool_decide_eq_false_2 by (intros [? ?]; discriminate). discriminate. }
  rewrite bool_decide_eq_true_2 by eauto. cbn [negb].
  intros E. injection E as <- <- <-.
  exists id, cust. eexists. repeat split; try reflexivity; [exact Hc|].
  cbn [path]. apply path_join_relative. reflexivity.
Qed.

Lemma letter_inv dir uuid pdf payload files st r files' :
  call_generate_sanction_letter dir uuid pdf payload files = (Returns (st, r), files') ->
  exists cust,
    payload !! "customer_id" = Some (JStr (Cust.customer_id cust))
    /\ CUSTOMERS !! Cust.customer_id cust = Some cust
    /\ truthy (payload_get payload "amount") = true
    /\ st = "ok"%string
    /\ resource r = "resource://" +:+ "sanction_" +:+ Cust.customer_id cust +:+ "_" +:+ uuid +:+ ".pdf"
    /\ path r = dir_prefix dir +:+ "sanction_" +:+ Cust.customer_id cust +:+ "_" +:+ uuid +:+ ".pdf"
    /\ files' = <[path r := pdf]> files.
Proof.
  unfold call_generate_sanction_letter.
  destruct (payload !! "customer_id") as [cid|] eqn:Hp.
  2: { rewrite (payload_get_none _ _ Hp). discriminate. }
  rewrite (payload_get_some _ _ _ Hp).
  destruct (truthy cid); [|discriminate].
  destruct (truthy (payload_get payload "amount")); [|discriminate].
  cbn [negb orb].
  destruct (CUSTOMERS_get cid) as [[cust|]|e] eqn:Hg; try discriminate.
  apply CUSTOMERS_get_found in Hg as [-> Hc].
  intros E. injection E as <- <- <-.
  exists cust. repeat split; try reflexivity; [exact Hc|].
  cbn [path key_str]. apply path_join_relative. reflexivity.
Qed.

Lemma fetch_after_write dir name content files :
  String.prefix "/" name = false ->
  fetch_resource dir name (<[dir_prefix dir +:+ name := content]> files) = Returns content.
Proof.
  intros Hn. unfold fetch_resource.
  rewrite (path_join_relative _ _ Hn), lookup_insert_eq. reflexivity.
Qed.

(** An uploaded slip is served back under the name in the resource
    reference. *)
Theorem upload_then_fetch dir uuid cid fname content files st r files' :
  call_upload_salary_slip dir uuid cid fname content files = (Returns (st, r), files') ->
  exists name,
    resource r = "resource://" +:+ name
    /\ fetch_resource dir name files' = Returns content.
Proof.
  intros H. destruct (upload_inv _ _ _ _ _ _ _ _ _ H)
    as (id & cust & ext & -> & Hc & _ & _ & Hr & Hp & ->).
  eexists. split; [exact Hr|]. rewrite Hp.
  apply fetch_after_write. reflexivity.
Qed.

(** A sanction letter is served back under the name in its resource
    reference. *)
Theorem letter_then_fetch dir uuid pdf payload files st r files' :
  call_generate_sanction_letter dir uuid pdf payload files = (Returns (st, r), files') ->
  exists name,
    resource r = "resource://" +:+ name
    /\ fetch_resource dir name files' = Returns pdf.
Proof.
  intros H. destruct (letter_inv _ _ _ _ _ _ _ _ H)
    as (cust & _ & _ & _ & _ & Hr & Hp & ->).
  eexists. split; [exact Hr|]. rewrite Hp.
  apply fetch_after_write. reflexivity.
Qed.

(** The upload writes one file and leaves every other path as it was:
    the bytes go to a name directly under the storage directory that has
    no separator in it, whatever the client called the file, and that
    path is the one the response reports. *)
Theorem upload_stays_in_storage dir uuid cid fname content files st r files' :
  is_hex uuid = true ->
  call_upload_salary_slip dir uuid cid fname content files = (Returns (st, r), files') ->
  exists name ext,
    files' = <[dir_prefix dir +:+ name := content]> files
    /\ path r = dir_prefix dir +:+ name
    /\ no_sep name = true
    /\ name = "salary_" +:+ default ""%string cid +:+ "_" +:+ uuid +:+ ext
    /\ String.prefix "." ext = true
    /\ (ext = ".pdf"%string \/ ext = (splitext fname).2).
Proof.
  intros Hu H. destruct (upload_inv _ _ _ _ _ _ _ _ _ H)
    as (id & cust & ext & -> & Hc & Hext & _ & _ & Hp & Hf).
  destruct (CUSTOMERS_keys _ _ Hc) as (_ & Hid & _).
  assert (Hx : String.prefix "." ext = true /\ no_sep ext = true
               /\ (ext = ".pdf"%string \/ ext = (splitext fname).2)).
  { subst ext. destruct (String.eqb_spec (splitext fname).2 "") as [E|E].
    - repeat split; auto.
    - destruct (splitext_ext fname) as [E' | [? ?]]; [contradiction | auto]. }
  destruct Hx as (Hdot & Hsep & Hor).
  exists ("salary_" +:+ id +:+ "_" +:+ uuid +:+ ext), ext.
  split; [rewrite <- Hp; exact Hf|].
  split; [exact Hp|]. split; [|auto].
  rewrite !no_sep_append, Hid, (is_hex_no_sep _ Hu), Hsep. reflexivity.
Qed.

Lemma upload_failure_keeps_files dir uuid cid fname content files e files' :
  call_upload_salary_slip dir uuid cid fname content files = (Raises e, files') ->
  files' = files.
Proof.
  unfold call_upload_salary_slip.
  repeat match goal with
         | |- context [if ?b then _ else _] => destruct b
         end; intros E; injection E; auto || discriminate.
Qed.

Lemma letter_failure_keeps_files dir uuid pdf payload files e files' :
  call_generate_sanction_letter dir uuid pdf payload files = (Raises e, files') ->
  files' = files.
Proof.
  unfold call_generate_sanction_letter.
  destruct (_ || _); [intros E; injection E; auto|].
  destruct (CUSTOMERS_get _) as [[c|]|x]; intros E; injection E; auto || discriminate.
Qed.

(** A request that fails writes nothing. *)
Theorem failed_request_writes_nothing dir uuid files e files' :
  (forall cid fname content,
     call_upload_salary_slip dir uuid cid fname content files = (Raises e, files') ->
     files' = files)
  /\ (forall pdf payload,
     call_generate_sanction_letter dir uuid pdf payload files = (Raises e, files') ->
     files' = files).
Proof.
  split.
  - intros cid fname content. apply upload_failure_keeps_files.
  - intros pdf payload. apply letter_failure_keeps_files.
Qed.

Lemma log_path_relative dir :
  path_join dir "mcp_audit.log" = dir_prefix dir +:+ "mcp_audit.log".
Proof. apply path_join_relative. reflexivity. Qed.

(** The audit log only grows, and [fetch_resource] serves it: after the
    events, the file holds what it held before, then one line per event
    in order. *)
Theorem audit_log_appended_and_served dir line lines files :
  fetch_resource dir "mcp_audit.log"
    (foldl (fun fs l => log_event_file dir l fs) files (line :: lines))
  = Returns (default ""%string (files !! path_join dir "mcp_audit.log")
             +:+ log_text (line :: lines)).
Proof.
  revert line files. induction lines as [|l lines IH]; intros line files.
  - cbn [foldl log_text foldr]. unfold log_event_file, fetch_resource.
    rewrite lookup_insert_eq. reflexivity.
  - change (foldl _ files (line :: l :: lines))
      with (foldl (fun fs l => log_event_file dir l fs) (log_event_file dir line files) (l :: lines)).
    rewrite IH. unfold log_event_file at 1. rewrite lookup_insert_eq.
    cbn [default]. change (log_text (line :: l :: lines))
      with (line +:+ String "010" "" +:+ log_text (l :: lines)).
    unfold id. rewrite !append_assoc. reflexivity.
Qed.

Lemma storage_name_not_log dir rest :
  dir_prefix dir +:+ String "s" rest <> path_join dir "mcp_audit.log".
Proof.
  rewrite log_path_relative. intros E. apply append_inv_head in E. discriminate E.
Qed.

(** Uploads and sanction letters leave the audit log as it is. *)
Theorem storage_writes_leave_audit_log dir uuid files :
  (forall cid fname content a files',
     call_upload_salary_slip dir uuid cid fname content files = (a, files') ->
     files' !! path_join dir "mcp_audit.log" = files !! path_join dir "mcp_audit.log")
  /\ (forall pdf payload a files',
     call_generate_sanction_letter dir uuid pdf payload files = (a, files') ->
     files' !! path_join dir "mcp_audit.log" = files !! path_join dir "mcp_audit.log").
Proof.
  split.
  - intros cid fname content [[st r]|e] files' H.
    + destruct (upload_inv _ _ _ _ _ _ _ _ _ H) as (id & cust & ext & _ & _ & _ & _ & _ & Hp & ->).
      rewrite Hp. apply lookup_insert_ne, storage_name_not_log.
    + rewrite (upload_failure_keeps_files _ _ _ _ _ _ _ _ H). reflexivity.
  - intros pdf payload [[st r]|e] files' H.
    + destruct (letter_inv _ _ _ _ _ _ _ _ H) as (cust & _ & _ & _ & _ & _ & Hp & ->).
      rewrite Hp. apply lookup_insert_ne, storage_name_not_log.
    + rewrite (letter_failure_keeps_files _ _ _ _ _ _ _ H). reflexivity.
Qed.

Lemma append_split_length (a b c d : string) :
  String.length a = String.length c -> a +:+ b = c +:+ d -> a = c /\ b = d.
Proof.
  revert c. induction a as [|x a IH]; intros [|y c]; try discriminate.
  - auto.
  - intros Hlen. injection Hlen as Hlen.
    change (String x (a +:+ b) = String y (c +:+ d) -> String x a = String y c /\ b = d).
    intros E. injection E as -> E. destruct (IH _ Hlen E) as [-> ->]. auto.
Qed.

(** Two uploads under different uuids of one length are stored under
    different paths: the second leaves the first in place. *)
Theorem uploads_do_not_clash dir uuid1 uuid2 cid1 cid2 fname1 fname2
    content1 content2 files st1 r1 files1 st2 r2 files2 :
  uuid1 <> uuid2 -> String.length uuid1 = String.length uuid2 ->
  call_upload_salary_slip dir uuid1 cid1 fname1 content1 files = (Returns (st1, r1), files1) ->
  call_upload_salary_slip dir uuid2 cid2 fname2 content2 files1 = (Returns (st2, r2), files2) ->
  path r1 <> path r2 /\ files2 !! path r1 = Some content1.
Proof.
  intros Hne Hlen H1 H2.
  destruct (upload_inv _ _ _ _ _ _ _ _ _ H1)
    as (id1 & c1 & e1 & _ & Hc1 & _ & _ & _ & Hp1 & ->).
  destruct (upload_inv _ _ _ _ _ _ _ _ _ H2)
    as (id2 & c2 & e2 & _ & Hc2 & _ & _ & _ & Hp2 & ->).
  destruct (CUSTOMERS_keys _ _ Hc1) as (_ & _ & L1).
  destruct (CUSTOMERS_keys _ _ Hc2) as (_ & _ & L2).
  assert (Hpath : path r1 <> path r2).
  { rewrite Hp1, Hp2. intros E. apply append_inv_head in E.
    apply (append_inv_head "salary_") in E.
    apply append_split_length in E as [_ E]; [|congruence].
    apply (append_inv_head "_") in E.
    apply append_split_length in E as [E _]; [|assumption].
    contradiction. }
  split; [exact Hpath|].
  rewrite lookup_insert_ne by congruence. apply lookup_insert_eq.
Qed.

Lemma credit_floor_rejects_any {F : Type} {ops : FloatOps F}
    (cust : Cust.t) (data : UnderwriteInput F) :
  Cust.credit_score cust < 700 ->
  underwrite cust data = Ok (ok (outcome_credit_floor (Cust.credit_score cust))).
Proof.
  intros Hs. unfold underwrite. apply Z.ltb_lt in Hs. rewrite Hs. reflexivity.
Qed.

(** *** Required fields and what the handlers do not check *)

(** The values [not v] holds for. *)
Lemma truthy_false (v : json) :
  truthy v = false <->
  v = JNull \/ v = JBool false \/ v = JInt 0
  \/ (exists f, v = JFloat f /\ PrimFloat.eqb f 0%float = true)
  \/ v = JStr "" \/ v = JList [] \/ v = JDict [].
Proof.
  split.
  - destruct v as [|[|]|z|f|s|[|x l]|[|x l]]; cbn; try discriminate; auto 10.
    + destruct (Z.eqb_spec z 0) as [->|]; [auto 10 | discriminate].
    + destruct (PrimFloat.eqb f 0%float) eqn:E; [eauto 10 | discriminate].
    + destruct (String.eqb_spec s "") as [->|]; [auto 10 | discriminate].
  - intros [-> | [-> | [-> | [(f & -> & E) | [-> | [-> | ->]]]]]]; cbn; try reflexivity.
    rewrite E. reflexivity.
Qed.

(** A required field that is missing or falsy is answered 400 before
    the customer is looked up. *)
Theorem falsy_required_field_is_400 (payload : gmap string json)
    (dir uuid pdf : string) (files : gmap string string) :
  (truthy (payload_get payload "customer_id") = false ->
     call_get_customer_info payload
     = Raises (HTTPError 400 (Some "customer_id required"%string))
     /\ call_get_credit_score payload = Raises (HTTPError 400 None))
  /\ (truthy (payload_get payload "customer_id") = false
      \/ truthy (payload_get payload "phone") = false ->
      call_verify_kyc payload
      = Raises (HTTPError 400 (Some "customer_id and phone required"%string)))
  /\ (truthy (payload_get payload "customer_id") = false
      \/ truthy (payload_get payload "amount") = false ->
      call_generate_sanction_letter dir uuid pdf payload files
      = (Raises (HTTPError 400 None), files)).
Proof.
  unfold call_get_customer_info, call_get_credit_score, call_verify_kyc,
    call_generate_sanction_letter.
  split; [intros Hc; rewrite Hc; split; reflexivity|].
  split; (intros [-> | ->]; cbn [negb orb];
          [reflexivity | rewrite orb_true_r; reflexivity]).
Qed.

Section WithArithmetic.

Context {F : Type} {ops : FloatOps F}.

(** The score [get_credit_score] reports is the score the underwriting
    decides on. *)
Theorem score_endpoint_predicts_underwriting
    (payload : gmap string json) (score : Z) (data : UnderwriteInput F) :
  payload !! "customer_id" = Some (JStr (customer_id data)) ->
  call_get_credit_score payload = Returns ("ok"%string, score) ->
  (score < 700 -> call_underwrite_loan data = Ok (ok (outcome_credit_floor score)))
  /\ (700 <= score ->
      forall resp, call_underwrite_loan data = Ok resp ->
        reason (result resp) <> "credit_score_below_700"%string
        /\ credit_score (result resp) = None).
Proof.
  intros Hp Hs. unfold call_get_credit_score in Hs.
  rewrite (payload_get_some _ _ _ Hp) in Hs.
  destruct (truthy _); [|discriminate Hs]. cbn [negb CUSTOMERS_get] in Hs.
  destruct (CUSTOMERS !! customer_id data) as [cust|] eqn:Hc; [|discriminate Hs].
  injection Hs as <-.
  unfold call_underwrite_loan. rewrite Hc. split.
  - apply credit_floor_rejects_any.
  - intros Hge resp. unfold underwrite. rewrite (score_ok _ Hge).
    repeat match goal with
           | |- context [if ?b then _ else _] => destruct b
           | |- context [mbind _ ?m] => destruct m; cbn
           end;
      intros E; inversion E; subst; cbn; (split; [discriminate | reflexivity]).
Qed.

(** A sanction letter is issued to every known customer for every
    truthy amount; the score and the limit are not consulted, so a
    customer whose every underwriting request is rejected gets one. *)
Theorem sanction_letter_without_approval
    (dir uuid pdf : string) (payload : gmap string json)
    (files : gmap string string) (cust : Cust.t) :
  payload !! "customer_id" = Some (JStr (Cust.customer_id cust)) ->
  CUSTOMERS !! Cust.customer_id cust = Some cust ->
  truthy (payload_get payload "amount") = true ->
  let name := "sanction_" +:+ Cust.customer_id cust +:+ "_" +:+ uuid +:+ ".pdf" in
  call_generate_sanction_letter dir uuid pdf payload files
  = (Returns ("ok"%string,
              {| resource := "resource://" +:+ name; path := dir_prefix dir +:+ name |}),
     <[dir_prefix dir +:+ name := pdf]> files)
  /\ (Cust.credit_score cust < 700 ->
      forall data : UnderwriteInput F,
        customer_id data = Cust.customer_id cust ->
        call_underwrite_loan data
        = Ok (ok (outcome_credit_floor (Cust.credit_score cust)))).
Proof.
  intros Hp Hc Ha name. split.
  - unfold call_generate_sanction_letter.
    rewrite (payload_get_some _ _ _ Hp), Ha, (CUSTOMERS_key_truthy _ _ Hc).
    cbn [negb orb CUSTOMERS_get key_str]. rewrite Hc.
    rewrite path_join_relative by reflexivity. reflexivity.
  - intros Hs data Hd. unfold call_underwrite_loan. rewrite Hd, Hc.
    apply credit_floor_rejects_any; assumption.
Qed.

End WithArithmetic.

(** *** Examples and instances *)

Example splitext_examples :
  splitext "slip.pdf" = ("slip", ".pdf")%string
  /\ splitext "archive.tar.gz" = ("archive.tar", ".gz")%string
  /\ splitext ".bashrc" = (".bashrc", "")%string
  /\ splitext "dir.d/name" = ("dir.d/name", "")%string
  /\ splitext "dir/.hidden.txt" = ("dir/.hidden", ".txt")%string
  /\ splitext "" = ("", "")%string.
Proof. vm_compute. repeat split. Qed.

Example path_join_examples :
  path_join "./storage" "a.pdf" = "./storage/a.pdf"%string
  /\ path_join "./storage/" "a.pdf" = "./storage/a.pdf"%string
  /\ path_join "" "a.pdf" = "a.pdf"%string
  /\ path_join "./storage" "/etc/passwd" = "/etc/passwd"%string.
Proof. vm_compute. repeat split. Qed.

(** The phone on file given as a number is not verified. *)
Example kyc_phone_as_number :
  call_verify_kyc {[ "customer_id" := JStr "CUST001"; "phone" := JInt 9810000001 ]}
  = Returns ("ok"%string, {| phone_verified := false; address_verified := true |}).
Proof. vm_compute. reflexivity. Qed.

(** A client file name with directories in it: only its extension is
    kept. *)
Example upload_hostile_name :
  (call_upload_salary_slip "./storage" uuid_a (Some "CUST001"%string)
     "../../etc/cron.d/job.sh" "#!/bin/sh" ∅).1
  = Returns ("ok"%string,
             {| resource := "resource://salary_CUST001_0123456789abcdef0123456789abcdef.sh";
                path := "./storage/salary_CUST001_0123456789abcdef0123456789abcdef.sh" |}).
Proof. vm_compute. reflexivity. Qed.

Lemma unhashable_customer_id_witness :
  call_get_customer_info {[ "customer_id" := JList [JStr "CUST001"] ]} = Raises TypeError
  /\ call_get_credit_score {[ "customer_id" := JList [JStr "CUST001"] ]} = Raises TypeError
  /\ (truthy (payload_get {[ "customer_id" := JList [JStr "CUST001"] ]} "phone") = true ->
      call_verify_kyc {[ "customer_id" := JList [JStr "CUST001"] ]} = Raises TypeError)
  /\ (truthy (payload_get {[ "customer_id" := JList [JStr "CUST001"] ]} "amount") = true ->
      call_generate_sanction_letter "./storage" uuid_a "%PDF" {[ "customer_id" := JList [JStr "CUST001"] ]} ∅
      = (Raises TypeError, ∅)).
Proof.
  apply (unhashable_customer_id {[ "customer_id" := JList [JStr "CUST001"] ]}
           (JList [JStr "CUST001"])).
  - reflexivity.
  - exact I.
Defined.

Lemma kyc_verifies_phone_on_file_witness :
  exists verified,
    call_verify_kyc {[ "customer_id" := JStr "CUST001"; "phone" := JStr "9810000001" ]}
    = Returns ("ok"%string, {| phone_verified := verified; address_verified := true |})
    /\ (verified = true <->
        ({[ "customer_id" := JStr "CUST001"; "phone" := JStr "9810000001" ]} : gmap string json)
          !! "phone" = Some (JStr (Cust.phone cust001))).
Proof.
  apply (kyc_verifies_phone_on_file
           {[ "customer_id" := JStr "CUST001"; "phone" := JStr "9810000001" ]} cust001).
  - reflexivity.
  - reflexivity.
  - reflexivity.
Defined.

(** A sanction letter for an amount of 0 is a 400. *)
Lemma falsy_required_field_is_400_witness :
  call_generate_sanction_letter "./storage" uuid_a "%PDF"
    {[ "customer_id" := JStr "CUST001"; "amount" := JInt 0 ]} ∅
  = (Raises (HTTPError 400 None), ∅).
Proof.
  apply (proj2 (proj2 (falsy_required_field_is_400
                         {[ "customer_id" := JStr "CUST001"; "amount" := JInt 0 ]}
                         "./storage" uuid_a "%PDF" ∅))).
  right. reflexivity.
Defined.

Lemma upload_then_fetch_witness :
  exists name,
    resource slip_a = "resource://" +:+ name
    /\ fetch_resource "./storage" name (<[path slip_a := "bytes"%string]> ∅) = Returns "bytes"%string.
Proof.
  apply (upload_then_fetch "./storage" uuid_a (Some "CUST001"%string) "slip" "bytes" ∅
           "ok" slip_a (<[path slip_a := "bytes"%string]> ∅)).
  vm_compute. reflexivity.
Defined.

Lemma letter_then_fetch_witness :
  exists name,
    resource letter_a = "resource://" +:+ name
    /\ fetch_resource "./storage" name (<[path letter_a := "%PDF"%string]> ∅) = Returns "%PDF"%string.
Proof.
  apply (letter_then_fetch "./storage" uuid_a "%PDF" letter_payload ∅
           "ok" letter_a (<[path letter_a := "%PDF"%string]> ∅)).
  vm_compute. reflexivity.
Defined.

Lemma upload_stays_in_storage_witness :
  exists name ext,
    (<[path slip_b := "bytes"%string]> ∅ : gmap string string)
      = <[dir_prefix "./storage" +:+ name := "bytes"%string]> ∅
    /\ path slip_b = dir_prefix "./storage" +:+ name
    /\ no_sep name = true
    /\ name = "salary_" +:+ default ""%string (Some "CUST002"%string) +:+ "_" +:+ uuid_b +:+ ext
    /\ String.prefix "." ext = true
    /\ (ext = ".pdf"%string \/ ext = (splitext "../up/scan.v2.png").2).
Proof.
  apply (upload_stays_in_storage "./storage" uuid_b (Some "CUST002"%string)
           "../up/scan.v2.png" "bytes" ∅ "ok" slip_b (<[path slip_b := "bytes"%string]> ∅)).
  - reflexivity.
  - vm_compute. reflexivity.
Defined.

Lemma uploads_do_not_clash_witness :
  path slip_a <> path slip_b
  /\ (<[path slip_b := "second"%string]> (<[path slip_a := "first"%string]> ∅) : gmap string string)
       !! path slip_a = Some "first"%string.
Proof.
  apply (uploads_do_not_clash "./storage" uuid_a uuid_b
           (Some "CUST001"%string) (Some "CUST002"%string) "slip" "scan.png"
           "first" "second" ∅
           "ok" slip_a (<[path slip_a := "first"%string]> ∅)
           "ok" slip_b (<[path slip_b := "second"%string]> (<[path slip_a := "first"%string]> ∅))).
  - vm_compute. discriminate.
  - reflexivity.
  - vm_compute. reflexivity.
  - vm_compute. reflexivity.
Defined.

Lemma failed_request_writes_nothing_witness :
  call_upload_salary_slip "./storage" uuid_a (Some "CUST999"%string) "slip.pdf" "bytes"
    {[ path slip_a := "first"%string ]}
  = (Raises (HTTPError 404 (Some "customer not found"%string)), {[ path slip_a := "first"%string ]})
  /\ ({[ path slip_a := "first"%string ]} : gmap string string) = {[ path slip_a := "first"%string ]}.
Proof.
  split; [vm_compute; reflexivity|].
  apply (proj1 (failed_request_writes_nothing "./storage" uuid_a
                  {[ path slip_a := "first"%string ]}
                  (HTTPError 404 (Some "customer not found"%string))
                  {[ path slip_a := "first"%string ]})
           (Some "CUST999"%string) "slip.pdf" "bytes").
  vm_compute. reflexivity.
Defined.

Lemma storage_writes_leave_audit_log_witness :
  (<[path slip_a := "bytes"%string]> (log_event_file "./storage" "{}" ∅) : gmap string string)
    !! path_join "./storage" "mcp_audit.log"
  = log_event_file "./storage" "{}" ∅ !! path_join "./storage" "mcp_audit.log".
Proof.
  apply (proj1 (storage_writes_leave_audit_log "./storage" uuid_a
                  (log_event_file "./storage" "{}" ∅))
           (Some "CUST001"%string) "slip" "bytes" (Returns ("ok"%string, slip_a))).
  vm_compute. reflexivity.
Defined.

Lemma score_endpoint_predicts_underwriting_witness :
  (690 < 700 ->
   call_underwrite_loan (request "CUST004" 100000 36 12%float None None)
   = Ok (ok (outcome_credit_floor 690)))
  /\ (700 <= 690 ->
      forall resp,
        call_underwrite_loan (request "CUST004" 100000 36 12%float None None) = Ok resp ->
        reason (result resp) <> "credit_score_below_700"%string
        /\ credit_score (result resp) = None).
Proof.
  apply (score_endpoint_predicts_underwriting {[ "customer_id" := JStr "CUST004" ]} 690
           (request "CUST004" 100000 36 12%float None None)).
  - reflexivity.
  - vm_compute. reflexivity.
Defined.

Lemma sanction_letter_without_approval_witness :
  call_generate_sanction_letter "./storage" uuid_a "%PDF" letter_payload ∅
  = (Returns ("ok"%string, letter_a), <[path letter_a := "%PDF"%string]> ∅)
  /\ (Cust.credit_score cust004 < 700 ->
      forall data : UnderwriteInput float,
        customer_id data = Cust.customer_id cust004 ->
        call_underwrite_loan data
        = Ok (ok (outcome_credit_floor (Cust.credit_score cust004)))).
Proof.
  apply (sanction_letter_without_approval "./storage" uuid_a "%PDF" letter_payload ∅ cust004).
  - reflexivity.
  - vm_compute. reflexivity.
  - reflexivity.
Defined.

(** In the second bracket an empty slip reference and a salary of 0
    count as absent: the answer is [require_salary_slip]. *)
Theorem empty_slip_and_zero_salary_are_absent
    (cust : Cust.t) (data : UnderwriteInput float) :
  700 <= Cust.credit_score cust ->
  Cust.pre_approved_limit cust < requested_amount data ->
  requested_amount data <= 2 * Cust.pre_approved_limit cust ->
  salary_slip_resource data = None \/ salary_slip_resource data = Some ""%string ->
  salary_provided data = None \/ salary_provided data = Some 0 ->
  underwrite cust data = Ok (ok outcome_slip_required).
Proof.
  intros Hs Hlo Hhi Hslip Hsal.
  apply slip_required_falsy; try assumption.
  unfold salary_evidence.
  destruct Hslip as [-> | ->], Hsal as [-> | ->]; reflexivity.
Qed.

Lemma empty_slip_and_zero_salary_are_absent_witness :
  underwrite cust001 (request "CUST001" 450000 36 12%float (Some 0) (Some ""%string))
  = Ok (ok outcome_slip_required).
Proof.
  apply (empty_slip_and_zero_salary_are_absent cust001
           (request "CUST001" 450000 36 12%float (Some 0) (Some ""%string))).
  - vm_compute. discriminate.
  - reflexivity.
  - vm_compute. discriminate.
  - right. reflexivity.
  - right. reflexivity.
Defined.
End OtherHandlers.

(** *** The shape of what the underwriting endpoint returns and raises *)

Section UnderwritingShape.

Context {F : Type} {ops : FloatOps F}.

(** Whatever the endpoint returns is one of the six outcomes, for the
    customer the request names. *)
Theorem outcome_is_one_of_six (data : UnderwriteInput F) (resp : Response F) :
  call_underwrite_loan data = Ok resp ->
  status resp = "ok"%string
  /\ exists cust,
       CUSTOMERS !! customer_id data = Some cust
       /\ (result resp = outcome_credit_floor (Cust.credit_score cust)
           \/ (exists e, result resp = outcome_within_limit e)
           \/ result resp = outcome_slip_required
           \/ (exists e, result resp = outcome_affordable e)
           \/ (exists e, result resp = outcome_unaffordable e)
           \/ result resp = outcome_exceeds_2x (Cust.pre_approved_limit cust)).
Proof.
  unfold call_underwrite_loan.
  destruct (CUSTOMERS !! customer_id data) as [cust|]; [|discriminate].
  unfold underwrite.
  repeat match goal with
         | |- context [if ?b then _ else _] => destruct b
         | |- context [mbind _ ?m] => destruct m; cbn
         end;
    intros E; inversion E; subst; (split; [reflexivity|]);
    exists cust; (split; [reflexivity|]); cbn; eauto 10.
Qed.

Lemma raise_origin (data : UnderwriteInput F) (cust : Cust.t) (e : exn) :
  CUSTOMERS !! customer_id data = Some cust ->
  call_underwrite_loan data = Raise e ->
  compute_emi (requested_amount data) (annual_rate data) (tenure_months data) = Raise e
  \/ float_of_int (effective_salary cust data) = Raise e.
Proof.
  intros Hc. unfold call_underwrite_loan. rewrite Hc. unfold underwrite.
  rewrite int_or_effective.
  repeat match goal with
         | |- context [if ?b then _ else _] => destruct b
         end; try discriminate;
  destruct (compute_emi _ _ _) as [x|x]; cbn; try (intros [= ->]; auto; fail);
  destruct (float_of_int _) as [s|s]; cbn; try (intros [= ->]; auto; fail);
  repeat match goal with
         | |- context [if ?b then _ else _] => destruct b
         end; discriminate.
Qed.

(** For a known customer the endpoint raises only what the EMI
    calculation or the conversion of the salary raises; and in the two
    brackets where the EMI is calculated, what the calculation raises
    is what the endpoint raises. *)
Theorem underwrite_raises_from_arithmetic
    (data : UnderwriteInput F) (cust : Cust.t) (e : exn) :
  CUSTOMERS !! customer_id data = Some cust ->
  (call_underwrite_loan data = Raise e ->
   compute_emi (requested_amount data) (annual_rate data) (tenure_months data) = Raise e
   \/ float_of_int (effective_salary cust data) = Raise e)
  /\ (700 <= Cust.credit_score cust ->
      requested_amount data <= Cust.pre_approved_limit cust
      \/ (requested_amount data <= 2 * Cust.pre_approved_limit cust
          /\ salary_evidence data = true) ->
      compute_emi (requested_amount data) (annual_rate data) (tenure_months data) = Raise e ->
      call_underwrite_loan data = Raise e).
Proof.
  intros Hc. split; [apply raise_origin; assumption|].
  intros Hs Hbr He. unfold call_underwrite_loan. rewrite Hc.
  destruct (Z.le_gt_cases (requested_amount data) (Cust.pre_approved_limit cust))
    as [Hle | Hgt].
  - rewrite within_limit_eq by assumption. rewrite He. reflexivity.
  - destruct Hbr as [Hle | [Hhi Hev]]; [lia|].
    rewrite affordability_eq by assumption. rewrite He. reflexivity.
Qed.

End UnderwritingShape.

Section OnBinary64Errors.

Import Binary64.

Lemma arithmetic_bind {A B} (m : res A) (k : A -> res B) :
  arithmetic m -> (forall a, arithmetic (k a)) -> arithmetic (m ≫= k).
Proof.
  intros Hm Hk code. destruct m as [a|e]; cbn.
  - apply Hk.
  - intros E. injection E as ->. exact (Hm code eq_refl).
Qed.

Lemma arithmetic_long_as_double z : arithmetic (long_as_double z).
Proof. intros code. unfold long_as_double. destruct (PrimFloat.is_infinity _); discriminate. Qed.

Lemma arithmetic_long_true_divide a b : arithmetic (long_true_divide a b).
Proof.
  intros code. unfold long_true_divide.
  destruct (b =? 0); [discriminate|]. destruct (PrimFloat.is_infinity _); discriminate.
Qed.

Lemma arithmetic_float_div x y : arithmetic (float_div x y).
Proof. intros code. unfold float_div. destruct (PrimFloat.eqb _ _); discriminate. Qed.

Lemma arithmetic_float_pow x n : arithmetic (float_pow x n).
Proof.
  unfold float_pow. apply arithmetic_bind; [apply arithmetic_long_as_double|].
  intros iw code.
  repeat match goal with
         | |- context [if ?b then _ else _] => destruct b
         end; discriminate.
Qed.

Lemma arithmetic_compute_emi P (rate : float) n : arithmetic (compute_emi P rate n).
Proof.
  unfold compute_emi. cbn [fdiv float_of_int int_truediv fpow ops].
  apply arithmetic_bind; [apply arithmetic_float_div|]. intros r12.
  apply arithmetic_bind; [apply arithmetic_float_div|]. intros r.
  destruct (feqb _ _); [apply arithmetic_long_true_divide|].
  apply arithmetic_bind; [apply arithmetic_long_as_double|]. intros Pf.
  apply arithmetic_bind; [apply arithmetic_float_pow|]. intros pw.
  apply arithmetic_bind; [apply arithmetic_float_pow|]. intros pw'.
  apply arithmetic_float_div.
Qed.

(** On binary64 the one HTTP error of the underwriting endpoint is the
    404 of an unknown customer; everything else it raises is a
    [ZeroDivisionError] or an [OverflowError]. *)
Theorem http_error_is_unknown_customer (data : UnderwriteInput float) (e : exn) :
  call_underwrite_loan data = Raise e ->
  (e = HTTPException 404 /\ CUSTOMERS !! customer_id data = None)
  \/ ((e = ZeroDivisionError \/ e = OverflowError)
      /\ is_Some (CUSTOMERS !! customer_id data)).
Proof.
  intros H. destruct (CUSTOMERS !! customer_id data) as [cust|] eqn:Hc.
  - right. split; [|eauto].
    destruct (raise_origin data cust e Hc H) as [E | E].
    + destruct e as [code| |]; auto.
      exfalso. exact (arithmetic_compute_emi _ _ _ code E).
    + destruct e as [code| |]; auto.
      exfalso. exact (arithmetic_long_as_double _ code E).
  - left. unfold call_underwrite_loan in H. rewrite Hc in H.
    injection H as <-. auto.
Qed.

End OnBinary64Errors.

(** The slip reference is only tested for being non-empty: two requests
    that differ in it alone, both with one or both without, get the
    same answer. *)
Theorem slip_reference_is_not_read {F : Type} {ops : FloatOps F}
    (cust : Cust.t) (data : UnderwriteInput F) (slip1 slip2 : option string) :
  truthy_str slip1 = truthy_str slip2 ->
  underwrite cust (with_slip data slip1) = underwrite cust (with_slip data slip2).
Proof.
  intros E. unfold underwrite. cbn [with_slip requested_amount tenure_months
    annual_rate salary_provided salary_slip_resource].
  rewrite E. reflexivity.
Qed.

Lemma slip_reference_is_not_read_witness :
  underwrite cust001
    (with_slip (request "CUST001" 450000 36 12%float None None) (Some "resource://never-uploaded"%string))
  = underwrite cust001
    (with_slip (request "CUST001" 450000 36 12%float None None) (Some "x"%string)).
Proof.
  apply (slip_reference_is_not_read cust001 (request "CUST001" 450000 36 12%float None None)).
  reflexivity.
Defined.

Lemma outcome_is_one_of_six_witness :
  let o : Outcome float := outcome_exceeds_2x 300000 in
  status (ok o) = "ok"%string
  /\ exists cust,
       CUSTOMERS !! customer_id (request "CUST001" 700000 36 12%float None None) = Some cust
       /\ (result (ok o) = outcome_credit_floor (Cust.credit_score cust)
           \/ (exists e, result (ok o) = outcome_within_limit e)
           \/ result (ok o) = outcome_slip_required
           \/ (exists e, result (ok o) = outcome_affordable e)
           \/ (exists e, result (ok o) = outcome_unaffordable e)
           \/ result (ok o) = outcome_exceeds_2x (Cust.pre_approved_limit cust)).
Proof.
  apply (outcome_is_one_of_six (request "CUST001" 700000 36 12%float None None)).
  vm_compute. reflexivity.
Defined.

Lemma underwrite_raises_from_arithmetic_witness :
  (call_underwrite_loan zero_tenure_request = Raise ZeroDivisionError ->
   compute_emi (requested_amount zero_tenure_request) (annual_rate zero_tenure_request)
     (tenure_months zero_tenure_request) = Raise ZeroDivisionError
   \/ float_of_int (F:=float) (effective_salary cust001 zero_tenure_request)
      = Raise ZeroDivisionError)
  /\ (700 <= Cust.credit_score cust001 ->
      requested_amount zero_tenure_request <= Cust.pre_approved_limit cust001
      \/ (requested_amount zero_tenure_request <= 2 * Cust.pre_approved_limit cust001
          /\ salary_evidence zero_tenure_request = true) ->
      compute_emi (requested_amount zero_tenure_request) (annual_rate zero_tenure_request)
        (tenure_months zero_tenure_request) = Raise ZeroDivisionError ->
      call_underwrite_loan zero_tenure_request = Raise ZeroDivisionError).
Proof.
  apply (underwrite_raises_from_arithmetic zero_tenure_request cust001).
  reflexivity.
Defined.

Lemma http_error_is_unknown_customer_witness :
  (HTTPException 404 = HTTPException 404
   /\ CUSTOMERS !! customer_id (request "CUST999" 1000 12 12%float None None) = None)
  \/ ((HTTPException 404 = ZeroDivisionError \/ HTTPException 404 = OverflowError)
      /\ is_Some (CUSTOMERS !! customer_id (request "CUST999" 1000 12 12%float None None))).
Proof.
  apply (http_error_is_unknown_customer (request "CUST999" 1000 12 12%float None None)).
  vm_compute. reflexivity.
Defined.
